(** * A shallow embedding of the Vertex AI provider, the Dify integration
      layer and the multi-agent orchestrator.

    Python values are modelled as follows.
    - [str] is a list of Unicode code points ([PyStr.pystr]); literals are
      written as UTF-8 text and decoded by [PyStr.py].
    - [int] is [Z], [float] is the binary64 primitive type [float].
    - [dict] values keep insertion order: association lists with the
      look-up and update of [PyDict].
    - an expression that may raise has type [outcome A].
    - calls that leave the program (the generation API, the chat model,
      [json.loads], [repr]) are parameters of the section that uses them. *)

From Stdlib Require Import List NArith ZArith String Ascii DecimalString Floats Bool Lia.
Import ListNotations.

Set Warnings "-inexact-float,-register-all".

(* ------------------------------------------------------------------ *)
(** ** Python strings *)

Module PyStr.

Definition codepoint := N.
Definition pystr := list codepoint.

Local Open Scope N_scope.

(** UTF-8 decoding of the bytes of a literal (sequences of one to three
    bytes, which covers every literal of the sources). *)
Fixpoint utf8_decode (bs : list N) : pystr :=
  match bs with
  | [] => []
  | b0 :: r0 =>
    if b0 <? 0x80 then b0 :: utf8_decode r0
    else
      match r0 with
      | [] => [b0]
      | b1 :: r1 =>
        if b0 <? 0xE0
        then ((b0 - 0xC0) * 64 + (b1 - 0x80)) :: utf8_decode r1
        else
          match r1 with
          | [] => [b0; b1]
          | b2 :: r2 =>
            ((b0 - 0xE0) * 4096 + (b1 - 0x80) * 64 + (b2 - 0x80))
              :: utf8_decode r2
          end
      end
  end.

Definition py (s : string) : pystr :=
  utf8_decode (map N_of_ascii (list_ascii_of_string s)).

(** The double quote and the line feed, spliced into literals. *)
Definition dq : pystr := [34].
Definition nl : pystr := [10].

Fixpoint eqb (a b : pystr) : bool :=
  match a, b with
  | [], [] => true
  | x :: a', y :: b' => (x =? y) && eqb a' b'
  | _, _ => false
  end.

(** [sep.join(parts)] *)
Fixpoint join (sep : pystr) (parts : list pystr) : pystr :=
  match parts with
  | [] => []
  | p :: rest =>
    match rest with
    | [] => p
    | _ :: _ => p ++ sep ++ join sep rest
    end
  end.

(** [t in s] *)
Definition contains (s t : pystr) : Prop :=
  exists pre post, s = pre ++ t ++ post.

(** [c.isspace()] *)
Definition isspace (c : codepoint) : bool :=
  ((0x09 <=? c) && (c <=? 0x0D)) || ((0x1C <=? c) && (c <=? 0x20))
  || (c =? 0x85) || (c =? 0xA0) || (c =? 0x1680)
  || ((0x2000 <=? c) && (c <=? 0x200A))
  || (c =? 0x2028) || (c =? 0x2029) || (c =? 0x202F)
  || (c =? 0x205F) || (c =? 0x3000).

(** [len(s.split())]: the number of maximal runs of non-space
    characters; [in_word] tells whether the previous character belonged
    to a run. *)
Fixpoint count_words (in_word : bool) (s : pystr) : nat :=
  match s with
  | [] => 0%nat
  | c :: s' =>
    if isspace c then count_words false s'
    else if in_word then count_words true s'
    else S (count_words true s')
  end.

Definition split_len (s : pystr) : nat := count_words false s.

(** [repr] of a string made of printable characters other than the
    quote and the backslash, as the keys of the registries are. *)
Definition repr_plain (s : pystr) : pystr := py "'" ++ s ++ py "'".

(** [str] of a list of such strings. *)
Definition str_of_list (l : list pystr) : pystr :=
  py "[" ++ join (py ", ") (map repr_plain l) ++ py "]".

End PyStr.

Import PyStr.

(* ------------------------------------------------------------------ *)
(** ** Dictionaries and exceptions *)

Module PyDict.

Section Dict.
Context {V : Type}.

Definition dict := list (pystr * V).

(** [d.get(k)] *)
Fixpoint get (k : pystr) (d : dict) : option V :=
  match d with
  | [] => None
  | (k', v) :: d' => if PyStr.eqb k k' then Some v else get k d'
  end.

(** [d.get(k, default)] *)
Definition get_default (k : pystr) (default : V) (d : dict) : V :=
  match get k d with Some v => v | None => default end.

(** [k in d] *)
Definition mem (k : pystr) (d : dict) : bool :=
  match get k d with Some _ => true | None => false end.

(** [list(d.keys())] *)
Definition keys (d : dict) : list pystr := map fst d.

(** [{**d, k: v}]: an existing key keeps its position. *)
Fixpoint set (k : pystr) (v : V) (d : dict) : dict :=
  match d with
  | [] => [(k, v)]
  | (k', v') :: d' =>
    if PyStr.eqb k k' then (k', v) :: d' else (k', v') :: set k v d'
  end.
End Dict.

Arguments dict V : clear implicits.

End PyDict.

Inductive exn_class :=
| ValueError | RuntimeError | KeyError | TypeError | OtherException.

(** An exception: its class and [str(e)]. *)
Record exn := mk_exn { exn_cls : exn_class; exn_str : pystr }.

Inductive outcome (A : Type) :=
| Returns (a : A)
| Raises (e : exn).
Arguments Returns {A} a.
Arguments Raises {A} e.

(* ------------------------------------------------------------------ *)
(** ** vertex_ai_provider.py *)

Module VertexAIProvider.

Record model_config := {
  name : pystr;
  model_id : pystr;
  max_tokens : Z;
  supports_hebrew : bool;
  description : pystr
}.

(** The fields set by [__init__] from its arguments. *)
Record provider := { project_id : pystr; location : pystr }.

Definition available_models : PyDict.dict model_config :=
  [ (py "gemini-pro",
     {| name := py "Gemini Pro";
        model_id := py "gemini-1.5-pro";
        max_tokens := 8192;
        supports_hebrew := true;
        description := py "Advanced multimodal model with Hebrew RTL support" |});
    (py "gemini-flash",
     {| name := py "Gemini Flash";
        model_id := py "gemini-1.5-flash";
        max_tokens := 8192;
        supports_hebrew := true;
        description :=
          py "Fast, efficient model optimized for Hebrew conversations" |}) ].

Definition get_available_models (self : provider) := available_models.

Definition hebrew_instructions : pystr := Eval vm_compute in
  py "אנא השב בעברית בצורה ברורה ומדויקת. " ++ nl ++
  py "שים לב לכיווניות הטקסט (RTL) ולתקינות הדקדוק העברי." ++ nl.

(** The test of the generator expression: the character lies between
    U+0590 and U+05FF (one-character strings compare by code point). *)
Definition is_hebrew_char (char : codepoint) : bool :=
  ((0x0590 <=? char) && (char <=? 0x05FF))%N.

Definition _contains_hebrew (text : pystr) : bool :=
  existsb is_hebrew_char text.

Definition _prepare_hebrew_prompt (prompt : pystr) : pystr :=
  let has_hebrew := existsb is_hebrew_char prompt in
  if has_hebrew
  then hebrew_instructions ++ nl ++ nl ++ prompt
  else prompt ++ nl ++ nl ++ hebrew_instructions.

Record generation_config := {
  max_output_tokens : Z;
  temperature : float;
  top_p : float;
  top_k : Z
}.

Record metadata := {
  md_project_id : pystr;
  md_location : pystr;
  md_temperature : float;
  md_max_tokens : Z
}.

(** The two shapes of the returned dictionary. *)
Inductive gen_result :=
| GenSuccess (response model model_id : pystr) (tokens_used : nat)
             (supports_hebrew : bool) (md : metadata)
| GenFailure (error model : pystr).

Definition success (r : gen_result) : bool :=
  match r with GenSuccess _ _ _ _ _ _ => true | GenFailure _ _ => false end.

(** [r["response"]]; [None] is Python's [None]. *)
Definition response (r : gen_result) : option pystr :=
  match r with
  | GenSuccess t _ _ _ _ _ => Some t
  | GenFailure _ _ => None
  end.

(** [r.get("error")] *)
Definition error (r : gen_result) : option pystr :=
  match r with
  | GenSuccess _ _ _ _ _ _ => None
  | GenFailure e _ => Some e
  end.

Definition tokens_used (r : gen_result) : nat :=
  match r with
  | GenSuccess _ _ _ n _ _ => n
  | GenFailure _ _ => 0%nat
  end.

(** What the generation service answers to one request: the [text] of
    the response ([None] when it has none) or an exception, raised by
    [GenerativeModel], by [generate_content] or by the [text] property. *)
Definition api_reply := outcome (option pystr).

(** The [try] block of [generate_response], up to and after its one
    request to the service. *)
Inductive gen_prog :=
| Done (o : outcome gen_result)
| GenerateContent (model_id prompt : pystr) (cfg : generation_config)
                  (k : api_reply -> outcome gen_result).

Definition unknown_model_error (model_name : pystr) : exn :=
  mk_exn ValueError
    (py "Model " ++ model_name ++ py " not available. Choose from: "
     ++ str_of_list (PyDict.keys available_models)).

Definition try_block (self : provider) (prompt model_name : pystr)
           (max_tokens : Z) (temperature : float) (enable_hebrew : bool)
  : gen_prog :=
  match PyDict.get model_name available_models with
  | None => Done (Raises (unknown_model_error model_name))
  | Some model_config =>
    let model_id := model_config.(model_id) in
    let enhanced_prompt :=
      if enable_hebrew then _prepare_hebrew_prompt prompt else prompt in
    let generation_config :=
      {| max_output_tokens := Z.min max_tokens model_config.(VertexAIProvider.max_tokens);
         temperature := temperature;
         top_p := 0.95;
         top_k := 40 |} in
    GenerateContent model_id enhanced_prompt generation_config
      (fun reply =>
         match reply with
         | Raises e => Raises e
         | Returns text =>
           let response_text :=
             match text with
             | Some (c :: t) => c :: t
             | _ => []
             end in
           Returns
             (GenSuccess response_text model_name model_id
                (match response_text with
                 | [] => 0%nat
                 | _ :: _ => split_len response_text
                 end)
                model_config.(supports_hebrew)
                {| md_project_id := self.(project_id);
                   md_location := self.(location);
                   md_temperature := temperature;
                   md_max_tokens := max_tokens |})
         end)
  end.

Section WithService.
(** The generation service. *)
Variable generate_content :
  pystr -> pystr -> generation_config -> api_reply.

Definition run_prog (p : gen_prog) : outcome gen_result :=
  match p with
  | Done o => o
  | GenerateContent model_id prompt cfg k =>
    k (generate_content model_id prompt cfg)
  end.

(** [try: ... except Exception as e: ...] *)
Definition generate_response (self : provider) (prompt model_name : pystr)
           (max_tokens : Z) (temperature : float) (enable_hebrew : bool)
  : gen_result :=
  match run_prog (try_block self prompt model_name max_tokens
                            temperature enable_hebrew) with
  | Returns r => r
  | Raises e => GenFailure (exn_str e) model_name
  end.
End WithService.

(** *** The constructor, the configuration check and the Hebrew test *)

Section Lifecycle.
(** The loaded service-account credentials. *)
Variable Credentials : Type.
(** [service_account.Credentials.from_service_account_file] *)
Variable from_service_account_file : pystr -> outcome Credentials.
(** [vertexai.init(project, location, credentials)]; the last argument
    is [None] when the call leaves it out. *)
Variable vertexai_init : pystr -> pystr -> option Credentials -> outcome unit.

(** [VertexAIProvider(project_id, location, credentials_path)]: the
    object, or the exception of one of the two calls. An empty path counts
    as no path. *)
Definition __init__ (project_id location : pystr)
           (credentials_path : option pystr) : outcome provider :=
  let self := {| project_id := project_id; location := location |} in
  match credentials_path with
  | Some (c :: path) =>
    match from_service_account_file (c :: path) with
    | Raises e => Raises e
    | Returns credentials =>
      match vertexai_init project_id location (Some credentials) with
      | Raises e => Raises e
      | Returns _ => Returns self
      end
    end
  | _ =>
    match vertexai_init project_id location None with
    | Raises e => Raises e
    | Returns _ => Returns self
    end
  end.

Definition create_vertex_ai_provider (project_id location : pystr)
           (credentials_path : option pystr) : outcome provider :=
  __init__ project_id location credentials_path.
End Lifecycle.

(** The two shapes of the dictionary of [validate_configuration]. *)
Inductive validation :=
| ValidationOk (project_id location : pystr) (available_models : list pystr)
               (status : pystr)
| ValidationFailed (error status : pystr).

Definition validation_success (v : validation) : bool :=
  match v with ValidationOk _ _ _ _ => true | ValidationFailed _ _ => false end.

Section Validation.
(** [aiplatform.gapic.ModelServiceClient], called with the API endpoint. *)
Variable model_service_client : pystr -> outcome unit.

Definition validate_configuration (self : provider) : validation :=
  match model_service_client
          (self.(location) ++ py "-aiplatform.googleapis.com") with
  | Returns _ =>
    ValidationOk self.(project_id) self.(location)
      (PyDict.keys available_models) (py "Vertex AI configuration is valid")
  | Raises e =>
    ValidationFailed (exn_str e) (py "Vertex AI configuration failed")
  end.
End Validation.

Definition hebrew_test_prompt : pystr := Eval vm_compute in
  py "בדוק את יכולות העיבוד שלך בעברית. ספר לי על היתרונות של בינה מלאכותית.".

(** One entry of the dictionary of [test_hebrew_capabilities]. *)
Record capability := {
  cap_success : bool;
  has_hebrew_response : bool;
  response_length : nat;
  cap_error : option pystr
}.

(** What iterating over [None] raises. *)
Definition none_not_iterable : exn :=
  mk_exn TypeError (py "'NoneType' object is not iterable").

Section Capabilities.
Variable generate_content :
  pystr -> pystr -> generation_config -> api_reply.

(** The body of the loop of [test_hebrew_capabilities]. The key
    [response] is present in both shapes of [result], so
    [result.get("response", "")] is [None] for a failure record, and
    [_contains_hebrew] raises when it starts to iterate over it. *)
Definition test_model (self : provider) (model_name : pystr)
  : outcome capability :=
  let result :=
    generate_response generate_content self hebrew_test_prompt model_name
      200 0.7 true in
  match response result with
  | None => Raises none_not_iterable
  | Some text =>
    Returns {| cap_success := success result;
               has_hebrew_response := _contains_hebrew text;
               response_length := List.length text;
               cap_error := error result |}
  end.

Fixpoint test_models (self : provider) (names : list pystr)
         (test_results : PyDict.dict capability)
  : outcome (PyDict.dict capability) :=
  match names with
  | [] => Returns test_results
  | model_name :: rest =>
    match test_model self model_name with
    | Raises e => Raises e
    | Returns entry =>
      test_models self rest (PyDict.set model_name entry test_results)
    end
  end.

Definition test_hebrew_capabilities (self : provider)
  : outcome (PyDict.dict capability) :=
  test_models self (PyDict.keys available_models) [].
End Capabilities.

End VertexAIProvider.

(* ------------------------------------------------------------------ *)
(** ** dify_vertex_ai_integration.py *)

Module DifyVertexAIIntegration.

Inductive param_rule :=
| FloatRule (min max default : float)
| IntRule (min max default : Z).

Record dify_model_config := {
  model_name : pystr;
  model_type : pystr;
  mode : pystr;
  context_size : Z;
  max_chunks : Z;
  chunk_size : Z;
  credentials : list pystr;
  parameters : PyDict.dict param_rule
}.

Definition model_configs : PyDict.dict dify_model_config :=
  [ (py "gemini-pro",
     {| model_name := py "gemini-pro";
        model_type := py "llm";
        mode := py "chat";
        context_size := 30720;
        max_chunks := 1;
        chunk_size := 4000;
        credentials := [py "project_id"; py "location"; py "service_account_key"];
        parameters :=
          [ (py "temperature", FloatRule 0.0 1.0 0.7);
            (py "max_tokens", IntRule 1 8192 1024);
            (py "top_p", FloatRule 0.0 1.0 0.95);
            (py "top_k", IntRule 1 100 40) ] |});
    (py "gemini-flash",
     {| model_name := py "gemini-flash";
        model_type := py "llm";
        mode := py "chat";
        context_size := 30720;
        max_chunks := 1;
        chunk_size := 4000;
        credentials := [py "project_id"; py "location"; py "service_account_key"];
        parameters :=
          [ (py "temperature", FloatRule 0.0 1.0 0.3);
            (py "max_tokens", IntRule 1 8192 1024);
            (py "top_p", FloatRule 0.0 1.0 0.95);
            (py "top_k", IntRule 1 100 40) ] |}) ].

(** The object: [vertex_provider] is [None] until [initialize_provider]
    has built one. *)
Record integration := {
  provider_name : pystr;
  supported_model_types : list pystr;
  vertex_provider : option VertexAIProvider.provider
}.

Definition create_dify_vertex_ai_integration : integration :=
  {| provider_name := py "vertex_ai";
     supported_model_types := [py "llm"; py "chat"; py "text-generation"];
     vertex_provider := None |}.

(** A message is a dictionary; the flattener reads its keys [role] and
    [content]. *)
Definition chat_message := PyDict.dict pystr.

(** One iteration of the loop of [_messages_to_prompt]. *)
Definition append_part (prompt_parts : list pystr) (message : chat_message)
  : list pystr :=
  let role := PyDict.get_default (py "role") (py "user") message in
  let content := PyDict.get_default (py "content") [] message in
  if PyStr.eqb role (py "system")
  then prompt_parts ++ [py "System: " ++ content]
  else if PyStr.eqb role (py "user")
  then prompt_parts ++ [py "User: " ++ content]
  else if PyStr.eqb role (py "assistant")
  then prompt_parts ++ [py "Assistant: " ++ content]
  else prompt_parts.

Definition _messages_to_prompt (messages : list chat_message) : pystr :=
  let prompt_parts := fold_left append_part messages [] in
  join (nl ++ nl) prompt_parts.

Definition _contains_hebrew (text : pystr) : bool :=
  existsb (fun char => ((0x0590 <=? char) && (char <=? 0x05FF))%N) text.

(** The two keys that [generate_response] reads from [parameters];
    [None] is an absent key. *)
Record gen_parameters := {
  p_temperature : option float;
  p_max_tokens : option Z
}.

Record usage := {
  prompt_tokens : nat;
  completion_tokens : nat;
  total_tokens : nat
}.

Record reply_message := { role : pystr; content : pystr }.

Record dify_response := {
  model : pystr;
  resp_usage : usage;
  message : reply_message
}.

Section WithService.
Variable generate_content :
  pystr -> pystr -> VertexAIProvider.generation_config ->
  VertexAIProvider.api_reply.

Definition generate_response (self : integration) (model : pystr)
           (messages : list chat_message) (parameters : gen_parameters)
           (stream : bool) : outcome dify_response :=
  match self.(vertex_provider) with
  | None =>
    Raises (mk_exn RuntimeError (py "Vertex AI provider not initialized"))
  | Some vertex_provider =>
    if negb (PyDict.mem model model_configs)
    then Raises (mk_exn ValueError
                   (py "Model " ++ model ++ py " not supported"))
    else
      let prompt := _messages_to_prompt messages in
      let temperature :=
        match parameters.(p_temperature) with
        | Some t => t | None => 0.7%float end in
      let max_tokens :=
        match parameters.(p_max_tokens) with
        | Some n => n | None => 1024%Z end in
      let response :=
        VertexAIProvider.generate_response generate_content
          vertex_provider prompt model max_tokens temperature true in
      match response with
      | VertexAIProvider.GenFailure error _ =>
        Raises (mk_exn RuntimeError (py "Generation failed: " ++ error))
      | VertexAIProvider.GenSuccess text _ _ tokens_used _ _ =>
        Returns
          {| model := model;
             resp_usage :=
               {| prompt_tokens := split_len prompt;
                  completion_tokens := tokens_used;
                  total_tokens := split_len prompt + tokens_used |};
             message := {| role := py "assistant"; content := text |} |}
      end
  end.
End WithService.

(** *** Initialisation, the integration test and the environment *)

Section Lifecycle.
Variable Credentials : Type.
Variable from_service_account_file : pystr -> outcome Credentials.
Variable vertexai_init : pystr -> pystr -> option Credentials -> outcome unit.
Variable model_service_client : pystr -> outcome unit.
(** [tempfile.NamedTemporaryFile] followed by [f.write]: the name of the
    file that now holds the text. *)
Variable named_temporary_file : pystr -> outcome pystr.

(** The object with a new [vertex_provider]. *)
Definition with_provider (self : integration)
           (vp : VertexAIProvider.provider) : integration :=
  {| provider_name := self.(provider_name);
     supported_model_types := self.(supported_model_types);
     vertex_provider := Some vp |}.

(** The [try] block of [initialize_provider] on credentials whose values
    are strings: the object as the block leaves it, and what the block
    returns or raises. *)
Definition initialize_provider_try (self : integration)
           (credentials : PyDict.dict pystr) : integration * outcome bool :=
  let project_id := PyDict.get (py "project_id") credentials in
  let location :=
    PyDict.get_default (py "location") (py "us-east1") credentials in
  let service_account_key :=
    PyDict.get (py "service_account_key") credentials in
  match project_id with
  | Some (c :: p) =>
    let project_id := c :: p in
    let credentials_path :=
      match service_account_key with
      | Some (k :: key) =>
        if (k =? 123)%N
        then
          match named_temporary_file (k :: key) with
          | Raises e => Raises e
          | Returns name => Returns (Some name)
          end
        else Returns (Some (k :: key))
      | _ => Returns None
      end in
    match credentials_path with
    | Raises e => (self, Raises e)
    | Returns credentials_path =>
      match VertexAIProvider.__init__ Credentials from_service_account_file
              vertexai_init project_id location credentials_path with
      | Raises e => (self, Raises e)
      | Returns vp =>
        let validation :=
          VertexAIProvider.validate_configuration model_service_client vp in
        if negb (VertexAIProvider.validation_success validation)
        then (with_provider self vp, Returns false)
        else (with_provider self vp, Returns true)
      end
    end
  | _ => (self, Raises (mk_exn ValueError (py "project_id is required")))
  end.

(** [try: ... except Exception: return False] *)
Definition initialize_provider (self : integration)
           (credentials : PyDict.dict pystr) : integration * bool :=
  let (self', result) := initialize_provider_try self credentials in
  (self', match result with Returns b => b | Raises _ => false end).

Definition validate_credentials (self : integration)
           (credentials : PyDict.dict pystr) : integration * bool :=
  initialize_provider self credentials.
End Lifecycle.

(** The three shapes of the dictionary of [test_hebrew_integration]. *)
Inductive integration_test :=
| TestNotInitialised (error : pystr)
| TestPassed (hebrew_capabilities : PyDict.dict VertexAIProvider.capability)
             (response_length : nat) (has_hebrew : bool) (tokens_used : nat)
| TestFailed (error : pystr)
             (hebrew_capabilities : PyDict.dict VertexAIProvider.capability).

Section HebrewTest.
Variable generate_content :
  pystr -> pystr -> VertexAIProvider.generation_config ->
  VertexAIProvider.api_reply.

Definition test_messages : list chat_message :=
  [[(py "role", py "user"); (py "content", py "מה זה Dify.ai?")]].

Definition test_hebrew_integration (self : integration)
  : outcome integration_test :=
  match self.(vertex_provider) with
  | None => Returns (TestNotInitialised (py "Provider not initialized"))
  | Some vertex_provider =>
    match VertexAIProvider.test_hebrew_capabilities generate_content
            vertex_provider with
    | Raises e => Raises e
    | Returns hebrew_test =>
      match generate_response generate_content self (py "gemini-flash")
              test_messages
              {| p_temperature := Some 0.7%float; p_max_tokens := Some 200%Z |}
              false with
      | Returns response =>
        Returns
          (TestPassed hebrew_test
             (List.length response.(message).(content))
             (_contains_hebrew response.(message).(content))
             response.(resp_usage).(total_tokens))
      | Raises e => Returns (TestFailed (exn_str e) hebrew_test)
      end
    end
  end.
End HebrewTest.

(** [os.environ] as a dictionary; [os.getenv(key, default)]. *)
Definition getenv (environ : PyDict.dict pystr) (key default : pystr) : pystr :=
  PyDict.get_default key default environ.

(** One iteration of the loop of [setup_dify_vertex_ai_environment]. *)
Definition export_variable (environ : PyDict.dict pystr)
           (item : pystr * pystr) : PyDict.dict pystr :=
  match snd item with
  | [] => environ
  | _ :: _ => PyDict.set (fst item) (snd item) environ
  end.

(** The environment after the call, and the dictionary returned. *)
Definition setup_dify_vertex_ai_environment (environ : PyDict.dict pystr)
  : PyDict.dict pystr * PyDict.dict pystr :=
  let env_vars :=
    [ (py "GOOGLE_VERTEX_PROJECT",
       getenv environ (py "GOOGLE_VERTEX_PROJECT") (py "lionspace"));
      (py "GOOGLE_VERTEX_LOCATION",
       getenv environ (py "GOOGLE_VERTEX_LOCATION") (py "us-east1"));
      (py "GOOGLE_APPLICATION_CREDENTIALS",
       getenv environ (py "GOOGLE_APPLICATION_CREDENTIALS")
         (py "/app/gcp-key.json")) ] in
  (fold_left export_variable env_vars environ, env_vars).

End DifyVertexAIIntegration.

(* ------------------------------------------------------------------ *)
(** ** agents_orchestrator.py *)

Module Orchestrator.

(** A value produced by [json.loads]. *)
Inductive json :=
| JNull
| JBool (b : bool)
| JInt (z : Z)
| JFloat (f : float)
| JString (s : pystr)
| JList (l : list json)
| JObject (o : list (pystr * json)).

(** Truth value of a parsed value in a condition. *)
Definition truthy (v : json) : bool :=
  match v with
  | JNull => false
  | JBool b => b
  | JInt z => negb (z =? 0)%Z
  | JFloat f => negb (PrimFloat.eqb f 0%float)
  | JString s => match s with [] => false | _ :: _ => true end
  | JList l => match l with [] => false | _ :: _ => true end
  | JObject o => match o with [] => false | _ :: _ => true end
  end.

Inductive chat_turn :=
| HumanMessage (content : pystr)
| AIMessage (content : pystr).

Definition turn_content (m : chat_turn) : pystr :=
  match m with HumanMessage c => c | AIMessage c => c end.

Record AgentState := {
  messages : list chat_turn;
  current_task : json;
  completed_tasks : list json;
  context : PyDict.dict json;
  next_agent : json
}.

(** The dictionary returned by a step: [None] is an absent key. *)
Record StateUpdate := {
  u_messages : option (list chat_turn);
  u_current_task : option json;
  u_completed_tasks : option (list json);
  u_context : option (PyDict.dict json);
  u_next_agent : option json
}.

(** The graph engine overwrites each key present in the update. *)
Definition merge (state : AgentState) (update : StateUpdate) : AgentState :=
  let pick {A} (new : option A) (old : A) : A :=
    match new with Some v => v | None => old end in
  {| messages := pick update.(u_messages) state.(messages);
     current_task := pick update.(u_current_task) state.(current_task);
     completed_tasks := pick update.(u_completed_tasks) state.(completed_tasks);
     context := pick update.(u_context) state.(context);
     next_agent := pick update.(u_next_agent) state.(next_agent) |}.

Definition planner_system_prompt : pystr := Eval vm_compute in
  nl ++
  py "        אתה סוכן תכנון חכם. המשימה שלך:" ++ nl ++
  py "        1. לנתח את הבקשה של המשתמש" ++ nl ++
  py "        2. לחלק אותה למשימות קטנות" ++ nl ++
  py "        3. להחליט איזה סוכן צריך לבצע כל משימה" ++ nl ++
  py "        4. לתת הוראות ברורות" ++ nl ++
  py "        " ++ nl ++
  py "        השב תמיד בפורמט JSON:" ++ nl ++
  py "        {" ++ nl ++
  py "          " ++ dq ++ py "plan" ++ dq ++ py ": [" ++ dq ++ py "משימה 1" ++ dq ++ py ", " ++ dq ++ py "משימה 2" ++ dq ++ py "]," ++ nl ++
  py "          " ++ dq ++ py "next_agent" ++ dq ++ py ": " ++ dq ++ py "researcher/coder/reviewer" ++ dq ++ py "," ++ nl ++
  py "          " ++ dq ++ py "instructions" ++ dq ++ py ": " ++ dq ++ py "הוראות ספציפיות" ++ dq ++ nl ++
  py "        }" ++ nl ++
  py "        ".

Definition researcher_system_prompt : pystr := Eval vm_compute in
  nl ++
  py "        אתה סוכן מחקר מקצועי. המשימה שלך:" ++ nl ++
  py "        1. לחקור ולאסוף מידע רלוונטי" ++ nl ++
  py "        2. לנתח ולסכם את הממצאים" ++ nl ++
  py "        3. להמליץ על הצעד הבא" ++ nl ++
  py "        " ++ nl ++
  py "        השב תמיד בפורמט JSON:" ++ nl ++
  py "        {" ++ nl ++
  py "          " ++ dq ++ py "research_results" ++ dq ++ py ": " ++ dq ++ py "סיכום הממצאים" ++ dq ++ py "," ++ nl ++
  py "          " ++ dq ++ py "recommendations" ++ dq ++ py ": " ++ dq ++ py "המלצות לצעד הבא" ++ dq ++ py "," ++ nl ++
  py "          " ++ dq ++ py "next_agent" ++ dq ++ py ": " ++ dq ++ py "coder/planner/reviewer" ++ dq ++ nl ++
  py "        }" ++ nl ++
  py "        ".

Definition coder_system_prompt : pystr := Eval vm_compute in
  nl ++
  py "        אתה מפתח תוכנה מומחה. המשימה שלך:" ++ nl ++
  py "        1. לכתוב קוד איכותי ומתועד" ++ nl ++
  py "        2. לפתור בעיות טכניות" ++ nl ++
  py "        3. להציע פתרונות יעילים" ++ nl ++
  py "        " ++ nl ++
  py "        השב תמיד בפורמט JSON:" ++ nl ++
  py "        {" ++ nl ++
  py "          " ++ dq ++ py "code" ++ dq ++ py ": " ++ dq ++ py "הקוד שנכתב" ++ dq ++ py "," ++ nl ++
  py "          " ++ dq ++ py "explanation" ++ dq ++ py ": " ++ dq ++ py "הסבר על הקוד" ++ dq ++ py "," ++ nl ++
  py "          " ++ dq ++ py "next_agent" ++ dq ++ py ": " ++ dq ++ py "reviewer/planner" ++ dq ++ nl ++
  py "        }" ++ nl ++
  py "        ".

Definition reviewer_system_prompt : pystr := Eval vm_compute in
  nl ++
  py "        אתה סוכן ביקורת קפדני. המשימה שלך:" ++ nl ++
  py "        1. לבדוק את איכות העבודה" ++ nl ++
  py "        2. להציע שיפורים" ++ nl ++
  py "        3. להחליט אם סיימנו או צריך עוד עבודה" ++ nl ++
  py "        " ++ nl ++
  py "        השב תמיד בפורמט JSON:" ++ nl ++
  py "        {" ++ nl ++
  py "          " ++ dq ++ py "review" ++ dq ++ py ": " ++ dq ++ py "ביקורת מפורטת" ++ dq ++ py "," ++ nl ++
  py "          " ++ dq ++ py "approved" ++ dq ++ py ": true/false," ++ nl ++
  py "          " ++ dq ++ py "next_agent" ++ dq ++ py ": " ++ dq ++ py "END/planner/coder" ++ dq ++ nl ++
  py "        }" ++ nl ++
  py "        ".

(** The list of role/content pairs handed to the chat model. *)
Definition prompt := list (pystr * pystr).

(** One call of [self.llm.invoke]: the [content] of the reply, or the
    exception the client raised. *)
Definition chat_model := prompt -> outcome pystr.

Definition role_of (m : chat_turn) : pystr :=
  match m with
  | HumanMessage _ => py "human"
  | AIMessage _ => py "assistant"
  end.

Section WithRuntime.
(** [json.loads]: [None] when it raises. *)
Variable json_loads : pystr -> option json.
(** [str] of a value that is not a string, as an f-string prints it. *)
Variable format_json : json -> pystr.

Definition fstr (v : json) : pystr :=
  match v with
  | JString s => s
  | _ => format_json v
  end.

(** Each step: the [try] block returns when [json.loads] succeeds and
    the result has a [get] method, that is, when it is a dictionary;
    the bare [except] covers every other case. *)

(** The list [messages] that the planner step hands to the chat model. *)
Definition planner_messages (state : AgentState) : prompt :=
  [(py "system", planner_system_prompt)]
  ++ map (fun m => (role_of m, turn_content m)) state.(messages).

Definition planner_logic (llm_invoke : chat_model) (state : AgentState)
  : outcome StateUpdate :=
  match llm_invoke (planner_messages state) with
  | Raises e => Raises e
  | Returns response_content =>
    match json_loads response_content with
    | Some (JObject result) =>
      Returns
        {| u_messages :=
             Some (state.(messages) ++ [AIMessage response_content]);
           u_current_task :=
             Some (PyDict.get_default (py "instructions") (JString []) result);
           u_completed_tasks := None;
           u_context :=
             Some (PyDict.set (py "plan")
                     (PyDict.get_default (py "plan") (JList []) result)
                     state.(context));
           u_next_agent :=
             Some (PyDict.get_default (py "next_agent")
                     (JString (py "researcher")) result) |}
    | _ =>
      Returns
        {| u_messages :=
             Some (state.(messages) ++ [AIMessage response_content]);
           u_current_task := None;
           u_completed_tasks := None;
           u_context := Some state.(context);
           u_next_agent := Some (JString (py "researcher")) |}
    end
  end.

(** The list [messages] that the researcher step hands to the chat model. *)
Definition researcher_messages (state : AgentState) : prompt :=
  [(py "system", researcher_system_prompt)]
  ++ [(py "human", py "חקור: " ++ fstr state.(current_task))].

Definition researcher_logic (llm_invoke : chat_model) (state : AgentState)
  : outcome StateUpdate :=
  match llm_invoke (researcher_messages state) with
  | Raises e => Raises e
  | Returns response_content =>
    match json_loads response_content with
    | Some (JObject result) =>
      Returns
        {| u_messages :=
             Some (state.(messages) ++ [AIMessage response_content]);
           u_current_task := None;
           u_completed_tasks :=
             Some (state.(completed_tasks) ++ [state.(current_task)]);
           u_context :=
             Some (PyDict.set (py "research") (JObject result)
                     state.(context));
           u_next_agent :=
             Some (PyDict.get_default (py "next_agent")
                     (JString (py "coder")) result) |}
    | _ =>
      Returns
        {| u_messages :=
             Some (state.(messages) ++ [AIMessage response_content]);
           u_current_task := None;
           u_completed_tasks := None;
           u_context := Some state.(context);
           u_next_agent := Some (JString (py "coder")) |}
    end
  end.

(** The list [messages] that the coder step hands to the chat model. *)
Definition coder_messages (state : AgentState) : prompt :=
  [(py "system", coder_system_prompt)]
  ++ [(py "human", py "כתוב קוד עבור: " ++ fstr state.(current_task))].

Definition coder_logic (llm_invoke : chat_model) (state : AgentState)
  : outcome StateUpdate :=
  match llm_invoke (coder_messages state) with
  | Raises e => Raises e
  | Returns response_content =>
    match json_loads response_content with
    | Some (JObject result) =>
      Returns
        {| u_messages :=
             Some (state.(messages) ++ [AIMessage response_content]);
           u_current_task := None;
           u_completed_tasks :=
             Some (state.(completed_tasks) ++ [state.(current_task)]);
           u_context :=
             Some (PyDict.set (py "code") (JObject result) state.(context));
           u_next_agent :=
             Some (PyDict.get_default (py "next_agent")
                     (JString (py "reviewer")) result) |}
    | _ =>
      Returns
        {| u_messages :=
             Some (state.(messages) ++ [AIMessage response_content]);
           u_current_task := None;
           u_completed_tasks := None;
           u_context := Some state.(context);
           u_next_agent := Some (JString (py "reviewer")) |}
    end
  end.

(** The list [messages] that the reviewer step hands to the chat model. *)
Definition reviewer_messages (state : AgentState) : prompt :=
  [(py "system", reviewer_system_prompt)]
  ++ [(py "human", py "בדוק: " ++ fstr (JObject state.(context)))].

Definition reviewer_logic (llm_invoke : chat_model) (state : AgentState)
  : outcome StateUpdate :=
  match llm_invoke (reviewer_messages state) with
  | Raises e => Raises e
  | Returns response_content =>
    match json_loads response_content with
    | Some (JObject result) =>
      let next_step :=
        if truthy (PyDict.get_default (py "approved") (JBool false) result)
        then JString (py "END")
        else PyDict.get_default (py "next_agent")
               (JString (py "planner")) result in
      Returns
        {| u_messages :=
             Some (state.(messages) ++ [AIMessage response_content]);
           u_current_task := None;
           u_completed_tasks :=
             Some (state.(completed_tasks) ++ [JString (py "review")]);
           u_context :=
             Some (PyDict.set (py "review") (JObject result) state.(context));
           u_next_agent := Some next_step |}
    | _ =>
      Returns
        {| u_messages :=
             Some (state.(messages) ++ [AIMessage response_content]);
           u_current_task := None;
           u_completed_tasks := None;
           u_context := Some state.(context);
           u_next_agent := Some (JString (py "END")) |}
    end
  end.

Definition step_fn := chat_model -> AgentState -> outcome StateUpdate.

(** [self.agents], in registration order. *)
Definition agents : PyDict.dict step_fn :=
  [ (py "planner", planner_logic);
    (py "researcher", researcher_logic);
    (py "coder", coder_logic);
    (py "reviewer", reviewer_logic) ].

(** The terminal sentinel imported from the graph library. *)
Variable END : pystr.

(** [next_agent in self.agents] hashes its left operand: a list or a
    dictionary raises, any other value that is not a registered name
    is simply absent. *)
Definition route_next (state : AgentState) : outcome pystr :=
  match state.(next_agent) with
  | JString next_agent =>
    if PyDict.mem next_agent agents then Returns next_agent
    else Returns END
  | JList _ => Raises (mk_exn TypeError (py "unhashable type: 'list'"))
  | JObject _ => Raises (mk_exn TypeError (py "unhashable type: 'dict'"))
  | _ => Returns END
  end.

(** [{name: name for name in self.agents.keys()} | {"END": END}] *)
Definition path_map : PyDict.dict pystr :=
  PyDict.set (py "END") END
    (map (fun name => (name, name)) (PyDict.keys agents)).

(** The chat model as the run sees it: the reply to the [n]-th call
    (counted from 0) on a given prompt. *)
Variable llm : nat -> prompt -> outcome pystr.

(** The compiled graph. After a step the engine merges the update,
    calls [route_next], looks the answer up in the path map and moves
    to the node found there, or stops when that is [END]; an answer
    that is no key of the path map is a [KeyError]. [fuel] bounds the
    number of steps; the result is the list of the steps run, each with
    the state it was called on, and [None] when the bound was reached
    first. *)
Fixpoint invoke_from (fuel calls : nat) (node : pystr) (state : AgentState)
  : list (pystr * AgentState) * option (outcome AgentState) :=
  match fuel with
  | O => ([], None)
  | S fuel' =>
    match PyDict.get node agents with
    | None => ([], Some (Raises (mk_exn KeyError (repr_plain node))))
    | Some agent_func =>
      match agent_func (llm calls) state with
      | Raises e => ([(node, state)], Some (Raises e))
      | Returns update =>
        let state' := merge state update in
        match route_next state' with
        | Raises e => ([(node, state)], Some (Raises e))
        | Returns r =>
          match PyDict.get r path_map with
          | None =>
            ([(node, state)],
             Some (Raises (mk_exn KeyError (repr_plain r))))
          | Some dest =>
            if PyStr.eqb dest END
            then ([(node, state)], Some (Returns state'))
            else
              let (trace, res) :=
                invoke_from fuel' (S calls) dest state' in
              ((node, state) :: trace, res)
          end
        end
      end
    end
  end.

(** [workflow.set_entry_point("planner")] *)
Definition invoke (fuel : nat) (state : AgentState) :=
  invoke_from fuel 0 (py "planner") state.

Inductive run_result :=
| FinalState (state : AgentState)
| ErrorResult (error : pystr) (messages : list chat_turn).

Definition run (fuel : nat) (user_input : pystr)
  : list (pystr * AgentState) * option run_result :=
  let initial_state :=
    {| messages := [HumanMessage user_input];
       current_task := JString user_input;
       completed_tasks := [];
       context := [];
       next_agent := JString (py "planner") |} in
  let (trace, res) := invoke fuel initial_state in
  (trace,
   match res with
   | None => None
   | Some (Returns result) => Some (FinalState result)
   | Some (Raises e) =>
     Some (ErrorResult (exn_str e)
             [AIMessage (py "שגיאה: " ++ exn_str e)])
   end).
End WithRuntime.

End Orchestrator.

(* ------------------------------------------------------------------ *)
(** ** A decoder for a fragment of JSON

    Objects, arrays, strings without escape sequences, integers and the
    three literals. It instantiates [json_loads] in the examples; the
    theorems about the orchestrator hold for every decoder. *)

Module JsonRef.
Import Orchestrator.
Local Open Scope N_scope.

Definition is_ws (c : codepoint) : bool :=
  (c =? 32) || (c =? 9) || (c =? 10) || (c =? 13).

Definition is_digit (c : codepoint) : bool := (48 <=? c) && (c <=? 57).

Fixpoint skip_ws (s : pystr) : pystr :=
  match s with
  | c :: s' => if is_ws c then skip_ws s' else s
  | [] => []
  end.

(** The characters up to the closing quote, and what follows it. *)
Fixpoint string_body (s : pystr) : option (pystr * pystr) :=
  match s with
  | [] => None
  | c :: s' =>
    if c =? 34 then Some ([], s')
    else if (c =? 92) || (c <? 32) then None
    else
      match string_body s' with
      | Some (t, r) => Some (c :: t, r)
      | None => None
      end
  end.

Fixpoint digits (acc : Z) (s : pystr) : Z * pystr :=
  match s with
  | c :: s' =>
    if is_digit c then digits (acc * 10 + Z.of_N (c - 48)) s' else (acc, s)
  | [] => (acc, [])
  end.

Fixpoint strip_prefix (p s : pystr) : option pystr :=
  match p, s with
  | [], _ => Some s
  | x :: p', y :: s' => if x =? y then strip_prefix p' s' else None
  | _ :: _, [] => None
  end.

Definition number (negative : bool) (s : pystr) : option (json * pystr) :=
  match s with
  | c :: _ =>
    if is_digit c then
      let (n, r) := digits 0 s in
      match r with
      | d :: _ =>
        if (d =? 46) || (d =? 101) || (d =? 69) then None
        else Some (JInt (if negative then - n else n)%Z, r)
      | [] => Some (JInt (if negative then - n else n)%Z, r)
      end
    else None
  | [] => None
  end.

Definition literal (word : string) (v : json) (s : pystr)
  : option (json * pystr) :=
  match strip_prefix (py word) s with
  | Some r => Some (v, r)
  | None => None
  end.

Fixpoint value (fuel : nat) (s : pystr) : option (json * pystr) :=
  match fuel with
  | O => None
  | S fuel' =>
    match skip_ws s with
    | [] => None
    | c :: r =>
      if c =? 34 then
        match string_body r with
        | Some (t, r') => Some (JString t, r')
        | None => None
        end
      else if c =? 123 then
        match skip_ws r with
        | d :: r' =>
          if d =? 125 then Some (JObject [], r') else members fuel' [] r
        | [] => None
        end
      else if c =? 91 then
        match skip_ws r with
        | d :: r' =>
          if d =? 93 then Some (JList [], r') else elements fuel' [] r
        | [] => None
        end
      else if c =? 45 then number true r
      else if c =? 116 then literal "true" (JBool true) (c :: r)
      else if c =? 102 then literal "false" (JBool false) (c :: r)
      else if c =? 110 then literal "null" JNull (c :: r)
      else number false (c :: r)
    end
  end

with members (fuel : nat) (acc : PyDict.dict json) (s : pystr)
  : option (json * pystr) :=
  match fuel with
  | O => None
  | S fuel' =>
    match skip_ws s with
    | q :: r =>
      if q =? 34 then
        match string_body r with
        | Some (key, r1) =>
          match skip_ws r1 with
          | colon :: r2 =>
            if colon =? 58 then
              match value fuel' r2 with
              | Some (v, r3) =>
                let acc' := PyDict.set key v acc in
                match skip_ws r3 with
                | d :: r4 =>
                  if d =? 44 then members fuel' acc' r4
                  else if d =? 125 then Some (JObject acc', r4)
                  else None
                | [] => None
                end
              | None => None
              end
            else None
          | [] => None
          end
        | None => None
        end
      else None
    | [] => None
    end
  end

with elements (fuel : nat) (acc : list json) (s : pystr)
  : option (json * pystr) :=
  match fuel with
  | O => None
  | S fuel' =>
    match value fuel' s with
    | Some (v, r) =>
      match skip_ws r with
      | d :: r' =>
        if d =? 44 then elements fuel' (acc ++ [v]) r'
        else if d =? 93 then Some (JList (acc ++ [v]), r')
        else None
      | [] => None
      end
    | None => None
    end
  end.

Definition json_loads (s : pystr) : option json :=
  match value (S (List.length s)) s with
  | Some (v, r) =>
    match skip_ws r with
    | [] => Some v
    | _ :: _ => None
    end
  | None => None
  end.

(** A printer after [repr], for values whose strings are plain; the
    decoder produces no floating-point number, which is printed as a
    placeholder. *)
Fixpoint format_json (v : json) : pystr :=
  match v with
  | JNull => py "None"
  | JBool true => py "True"
  | JBool false => py "False"
  | JInt z => py (NilZero.string_of_int (Z.to_int z))
  | JFloat _ => py "<float>"
  | JString s => repr_plain s
  | JList l => py "[" ++ join (py ", ") (map format_json l) ++ py "]"
  | JObject o =>
    py "{"
    ++ join (py ", ")
         (map (fun kv =>
                 match kv with
                 | (k, x) => repr_plain k ++ py ": " ++ format_json x
                 end) o)
    ++ py "}"
  end.

(** The value of [END] in the graph library. *)
Definition END : pystr := py "__end__".

End JsonRef.

Import Orchestrator.

(* ------------------------------------------------------------------ *)
(** ** Specification-side definitions and scenarios *)

(** The flattener as the specification words it, over (role, content)
    pairs: the capitalised role, a colon and a space, then the content;
    nothing for a role outside the fixed mapping. *)
Definition role_marker (role : pystr) : option pystr :=
  if PyStr.eqb role (py "system") then Some (py "System")
  else if PyStr.eqb role (py "user") then Some (py "User")
  else if PyStr.eqb role (py "assistant") then Some (py "Assistant")
  else None.

Definition flatten_line (rc : pystr * pystr) : list pystr :=
  match role_marker (fst rc) with
  | Some marker => [marker ++ py ": " ++ snd rc]
  | None => []
  end.

Definition flatten_spec (pairs : list (pystr * pystr)) : pystr :=
  join (nl ++ nl) (flat_map flatten_line pairs).

(** The dictionary of a role-tagged message. *)
Definition tagged (rc : pystr * pystr) : DifyVertexAIIntegration.chat_message :=
  [(py "role", fst rc); (py "content", snd rc)].

(** A provider, an integration object whose provider is initialised, a
    service that always fails, and an empty [parameters] dictionary. *)
Definition lionspace : VertexAIProvider.provider :=
  {| VertexAIProvider.project_id := py "lionspace";
     VertexAIProvider.location := py "us-east1" |}.

Definition initialised : DifyVertexAIIntegration.integration :=
  {| DifyVertexAIIntegration.provider_name := py "vertex_ai";
     DifyVertexAIIntegration.supported_model_types :=
       [py "llm"; py "chat"; py "text-generation"];
     DifyVertexAIIntegration.vertex_provider := Some lionspace |}.

Definition quota_exceeded :
  pystr -> pystr -> VertexAIProvider.generation_config
  -> VertexAIProvider.api_reply :=
  fun _ _ _ => Raises (mk_exn OtherException (py "429 quota exceeded")).

Definition no_parameters : DifyVertexAIIntegration.gen_parameters :=
  {| DifyVertexAIIntegration.p_temperature := None;
     DifyVertexAIIntegration.p_max_tokens := None |}.

(** A service that answers two words, and what the integration layer
    returns for it on the one-message conversation ["hi"]. *)
Definition shalom_service :
  pystr -> pystr -> VertexAIProvider.generation_config
  -> VertexAIProvider.api_reply :=
  fun _ _ _ => Returns (Some (py "shalom olam")).

Definition shalom_answer : DifyVertexAIIntegration.dify_response :=
  {| DifyVertexAIIntegration.model := py "gemini-flash";
     DifyVertexAIIntegration.resp_usage :=
       {| DifyVertexAIIntegration.prompt_tokens := 2;
          DifyVertexAIIntegration.completion_tokens := 2;
          DifyVertexAIIntegration.total_tokens := 4 |};
     DifyVertexAIIntegration.message :=
       {| DifyVertexAIIntegration.role := py "assistant";
          DifyVertexAIIntegration.content := py "shalom olam" |} |}.

(** The three variables and their fallback values. *)
Definition environment_defaults : PyDict.dict pystr :=
  [ (py "GOOGLE_VERTEX_PROJECT", py "lionspace");
    (py "GOOGLE_VERTEX_LOCATION", py "us-east1");
    (py "GOOGLE_APPLICATION_CREDENTIALS", py "/app/gcp-key.json") ].

(** The successor that each step takes when the reply names none, and
    the steps that follow a step along these successors. *)
Definition default_route (node : pystr) : pystr :=
  if PyStr.eqb node (py "planner") then py "researcher"
  else if PyStr.eqb node (py "researcher") then py "coder"
  else if PyStr.eqb node (py "coder") then py "reviewer"
  else py "planner".

Fixpoint route_cycle (steps : nat) (node : pystr) : list pystr :=
  match steps with
  | O => []
  | S steps' => node :: route_cycle steps' (default_route node)
  end.


Definition unhashable_list : exn :=
  mk_exn TypeError (py "unhashable type: 'list'").

Definition unhashable_dict : exn :=
  mk_exn TypeError (py "unhashable type: 'dict'").


Definition list_successor_reply : pystr := Eval vm_compute in
  py "{" ++ dq ++ py "next_agent" ++ dq ++ py ": ["
  ++ dq ++ py "coder" ++ dq ++ py "]}".

(** The update of the [except] branch of a step. *)
Definition fallback_update (state : AgentState) (reply successor : pystr)
  : StateUpdate :=
  {| u_messages := Some (state.(messages) ++ [AIMessage reply]);
     u_current_task := None;
     u_completed_tasks := None;
     u_context := Some state.(context);
     u_next_agent := Some (JString successor) |}.

(** One pass through the four steps. *)
Definition visits_all_once : list pystr :=
  [py "planner"; py "researcher"; py "coder"; py "reviewer"].

(** Scripted replies and chat models. *)
Definition approved_reply : pystr :=
  py "{" ++ dq ++ py "approved" ++ dq ++ py ": true}".

Definition approved_but_replan_reply : pystr :=
  py "{" ++ dq ++ py "approved" ++ dq ++ py ": true, "
  ++ dq ++ py "next_agent" ++ dq ++ py ": " ++ dq ++ py "planner" ++ dq
  ++ py "}".

Definition prose_reply : pystr := py "I approve.".

Definition always (reply : pystr) : nat -> prompt -> outcome pystr :=
  fun _ _ => Returns reply.

(** A state whose context holds a plan, and the update of the research
    step on it when the reply is the approval. *)
Definition planned_state : AgentState :=
  {| messages := [HumanMessage (py "task")];
     current_task := JString (py "task");
     completed_tasks := [];
     context := [(py "plan", JList [])];
     next_agent := JString (py "researcher") |}.

Definition researched_update : StateUpdate :=
  {| u_messages :=
       Some (planned_state.(messages) ++ [AIMessage approved_reply]);
     u_current_task := None;
     u_completed_tasks :=
       Some (planned_state.(completed_tasks)
               ++ [planned_state.(current_task)]);
     u_context :=
       Some (PyDict.set (py "research")
               (JObject [(py "approved", JBool true)])
               planned_state.(context));
     u_next_agent := Some (JString (py "coder")) |}.

(** The initial state that [run] builds. *)
Definition fresh_state (user_input : pystr) : AgentState :=
  {| messages := [HumanMessage user_input];
     current_task := JString user_input;
     completed_tasks := [];
     context := [];
     next_agent := JString (py "planner") |}.

(** The run of the four steps on prose replies, and the state handed to
    its last step. *)
Definition prose_walk :
  list (pystr * AgentState) * option (outcome AgentState) :=
  invoke_from JsonRef.json_loads JsonRef.format_json JsonRef.END
    (always prose_reply) 4 0 (py "planner") (fresh_state (py "task")).

Definition prose_walk_review_state : AgentState :=
  match nth_error (fst prose_walk) 3 with
  | Some (_, st) => st
  | None => fresh_state (py "task")
  end.

(* ------------------------------------------------------------------ *)
(** ** Facts about strings and dictionaries *)

Lemma pystr_eqb_eq (a b : pystr) : PyStr.eqb a b = true <-> a = b.
Proof.
  revert b; induction a as [|x a IH]; intros [|y b]; simpl; split;
    try congruence; try discriminate.
  - intros H. apply andb_true_iff in H as [Hx Hab].
    apply N.eqb_eq in Hx. apply IH in Hab. congruence.
  - intros H. injection H as -> ->.
    apply andb_true_iff. split; [apply N.eqb_refl | now apply IH].
Qed.

Lemma pystr_eqb_refl (a : pystr) : PyStr.eqb a a = true.
Proof. now apply pystr_eqb_eq. Qed.

Lemma pystr_eqb_sym (a b : pystr) : PyStr.eqb a b = PyStr.eqb b a.
Proof.
  destruct (PyStr.eqb a b) eqn:E, (PyStr.eqb b a) eqn:E'; try reflexivity.
  - apply pystr_eqb_eq in E. subst. rewrite pystr_eqb_refl in E'. discriminate.
  - apply pystr_eqb_eq in E'. subst. rewrite pystr_eqb_refl in E. discriminate.
Qed.

Lemma contains_prefix (t post : pystr) : contains (t ++ post) t.
Proof. exists [], post. reflexivity. Qed.

Lemma contains_app_r (pre s t : pystr) : contains s t -> contains (pre ++ s) t.
Proof.
  intros [a [b ->]]. exists (pre ++ a), b. rewrite <- app_assoc. reflexivity.
Qed.

Lemma contains_refl (t : pystr) : contains t t.
Proof. exists [], []. rewrite app_nil_r. reflexivity. Qed.

Lemma contains_mid (pre t post : pystr) : contains (pre ++ t ++ post) t.
Proof. apply contains_app_r, contains_prefix. Qed.

Example json_loads_approved :
  JsonRef.json_loads (py "{" ++ dq ++ py "approved" ++ dq ++ py ": true}")
  = Some (Orchestrator.JObject [(py "approved", Orchestrator.JBool true)]).
Proof. reflexivity. Qed.

Example json_loads_prose : JsonRef.json_loads (py "I approve.") = None.
Proof. reflexivity. Qed.

Example json_loads_plan :
  JsonRef.json_loads
    (py "{ " ++ dq ++ py "plan" ++ dq ++ py ": [" ++ dq ++ py "a" ++ dq
     ++ py ", -12, null], " ++ dq ++ py "next_agent" ++ dq ++ py ":"
     ++ dq ++ py "coder" ++ dq ++ py " }")
  = Some (JObject [(py "plan", JList [JString (py "a"); JInt (-12); JNull]);
                   (py "next_agent", JString (py "coder"))]).
Proof. reflexivity. Qed.

Example format_json_context :
  JsonRef.format_json
    (JObject [(py "plan", JList [JString (py "a"); JInt (-12); JNull]);
              (py "done", JBool true)])
  = py "{'plan': ['a', -12, None], 'done': True}".
Proof. reflexivity. Qed.

Example system_prompt_lengths :
  map (@List.length codepoint)
      [planner_system_prompt; researcher_system_prompt; coder_system_prompt;
       reviewer_system_prompt]
  = [393; 354; 323; 330]%nat.
Proof. reflexivity. Qed.

Example reviewer_messages_fresh :
  reviewer_messages JsonRef.format_json (fresh_state (py "task"))
  = [(py "system", reviewer_system_prompt); (py "human", py "בדוק: {}")].
Proof. reflexivity. Qed.

(* ------------------------------------------------------------------ *)
(** ** The Hebrew helpers *)

Section HebrewFacts.
Import VertexAIProvider.
Local Open Scope N_scope.

Lemma is_hebrew_char_spec (c : codepoint) :
  is_hebrew_char c = true <-> 0x0590 <= c <= 0x05FF.
Proof.
  unfold is_hebrew_char. rewrite andb_true_iff, !N.leb_le. tauto.
Qed.

Lemma existsb_range (text : pystr) :
  existsb is_hebrew_char text = true
  <-> exists c, In c text /\ 0x0590 <= c <= 0x05FF.
Proof.
  rewrite existsb_exists. split; intros [c [Hin Hc]]; exists c;
    (split; [exact Hin | now apply is_hebrew_char_spec]).
Qed.

Lemma ascii_not_hebrew (text : pystr) :
  Forall (fun c => c < 128) text -> existsb is_hebrew_char text = false.
Proof.
  induction 1 as [|c text Hc _ IH]; simpl; [reflexivity|].
  rewrite IH, orb_false_r. unfold is_hebrew_char.
  apply andb_false_iff. left. apply N.leb_gt. lia.
Qed.

Lemma hebrew_instructions_length : List.length hebrew_instructions = 89%nat.
Proof. reflexivity. Qed.
End HebrewFacts.

(** C6. Both copies of the Hebrew detector return [true] exactly on the
    strings that have a character between U+0590 and U+05FF; on a string
    of ASCII characters only, the empty string included, they return
    [false]. *)
Theorem contains_hebrew_iff_in_block (text : pystr) :
  (VertexAIProvider._contains_hebrew text = true
   <-> exists c, In c text /\ (0x0590 <= c <= 0x05FF)%N)
  /\ (DifyVertexAIIntegration._contains_hebrew text = true
      <-> exists c, In c text /\ (0x0590 <= c <= 0x05FF)%N)
  /\ (Forall (fun c => (c < 128)%N) text ->
      VertexAIProvider._contains_hebrew text = false
      /\ DifyVertexAIIntegration._contains_hebrew text = false)
  /\ VertexAIProvider._contains_hebrew [] = false
  /\ DifyVertexAIIntegration._contains_hebrew [] = false.
Proof.
  assert (Hsame : DifyVertexAIIntegration._contains_hebrew text
                  = VertexAIProvider._contains_hebrew text) by reflexivity.
  rewrite Hsame. unfold VertexAIProvider._contains_hebrew.
  repeat split; try apply existsb_range; try now apply ascii_not_hebrew.
Qed.

Lemma contains_hebrew_iff_in_block_witness :
  VertexAIProvider._contains_hebrew (py "hello") = false
  /\ DifyVertexAIIntegration._contains_hebrew (py "hello") = false.
Proof.
  refine (proj1 (proj2 (proj2 (contains_hebrew_iff_in_block (py "hello")))) _).
  repeat constructor.
Defined.

Example contains_hebrew_shalom :
  VertexAIProvider._contains_hebrew (py "say שלום") = true.
Proof. reflexivity. Qed.

(** C7. [_prepare_hebrew_prompt] is defined on every string: the
    instruction block is not empty, it is put before the prompt (followed
    by a blank line) when the prompt has a Hebrew character and after it
    (preceded by a blank line) otherwise; so the result contains the
    prompt and is longer, by 91 characters. *)
Theorem prepare_hebrew_prompt_extends (prompt : pystr) :
  VertexAIProvider.hebrew_instructions <> []
  /\ VertexAIProvider._prepare_hebrew_prompt prompt
     = (if VertexAIProvider._contains_hebrew prompt
        then VertexAIProvider.hebrew_instructions ++ nl ++ nl ++ prompt
        else prompt ++ nl ++ nl ++ VertexAIProvider.hebrew_instructions)
  /\ contains (VertexAIProvider._prepare_hebrew_prompt prompt) prompt
  /\ List.length (VertexAIProvider._prepare_hebrew_prompt prompt)
     = (List.length prompt + 91)%nat
  /\ (List.length prompt
      < List.length (VertexAIProvider._prepare_hebrew_prompt prompt))%nat.
Proof.
  assert (Hlen : List.length (VertexAIProvider._prepare_hebrew_prompt prompt)
                 = (List.length prompt + 91)%nat).
  { unfold VertexAIProvider._prepare_hebrew_prompt.
    destruct (existsb VertexAIProvider.is_hebrew_char prompt);
      rewrite !length_app, hebrew_instructions_length; simpl; lia. }
  split; [discriminate|]. split; [reflexivity|]. split.
  - unfold VertexAIProvider._prepare_hebrew_prompt.
    destruct (existsb VertexAIProvider.is_hebrew_char prompt).
    + do 3 apply contains_app_r. apply contains_refl.
    + apply contains_prefix.
  - split; [exact Hlen | rewrite Hlen; lia].
Qed.

Example prepare_hebrew_prompt_empty :
  VertexAIProvider._prepare_hebrew_prompt []
  = nl ++ nl ++ VertexAIProvider.hebrew_instructions.
Proof. reflexivity. Qed.

(* ------------------------------------------------------------------ *)
(** ** The model-call wrapper *)

Section WrapperFacts.
Import VertexAIProvider.

Lemma unknown_model_error_mentions (model_name : pystr) :
  contains (exn_str (unknown_model_error model_name)) model_name
  /\ Forall (fun valid => contains (exn_str (unknown_model_error model_name)) valid)
            (PyDict.keys available_models).
Proof.
  unfold unknown_model_error, exn_str. split.
  - apply contains_mid.
  - repeat constructor.
    + do 3 apply contains_app_r.
      exists (py "['"), (py "', 'gemini-flash']"). reflexivity.
    + do 3 apply contains_app_r.
      exists (py "['gemini-pro', '"), (py "']"). reflexivity.
Qed.

Example unknown_model_error_text :
  exn_str (unknown_model_error (py "gpt-4"))
  = py "Model gpt-4 not available. Choose from: ['gemini-pro', 'gemini-flash']".
Proof. reflexivity. Qed.
End WrapperFacts.

(** C1, as the claim has it, fails: called with the temperature 2.0 on
    a registered model, [generate_response] sends a request whose
    temperature is 2.0, which is not at most 1.0. *)
Lemma temperature_reaches_service_unclamped :
  exists model_id prompt cfg k,
    VertexAIProvider.try_block lionspace (py "hello") (py "gemini-pro")
      1024 2.0 true
    = VertexAIProvider.GenerateContent model_id prompt cfg k
    /\ cfg.(VertexAIProvider.temperature) = 2.0%float
    /\ PrimFloat.leb cfg.(VertexAIProvider.temperature) 1.0 = false.
Proof. do 4 eexists. repeat split. Qed.

(** C1, amended. Whenever [generate_response] sends a request to the
    service, the model is registered, the maximum of output tokens is the
    smaller of the caller's value and the ceiling of the model (so at most
    the ceiling), the temperature is the caller's value unchanged, and
    top-p and top-k are the constants 0.95 and 40. *)
Theorem generation_config_of_request
        (self : VertexAIProvider.provider) (prompt model_name : pystr)
        (max_tokens : Z) (temperature : float) (enable_hebrew : bool)
        (model_id sent : pystr) (cfg : VertexAIProvider.generation_config)
        (k : VertexAIProvider.api_reply -> outcome VertexAIProvider.gen_result) :
  VertexAIProvider.try_block self prompt model_name max_tokens temperature
    enable_hebrew
  = VertexAIProvider.GenerateContent model_id sent cfg k ->
  exists model_config,
    PyDict.get model_name VertexAIProvider.available_models = Some model_config
    /\ cfg.(VertexAIProvider.max_output_tokens)
       = Z.min max_tokens model_config.(VertexAIProvider.max_tokens)
    /\ (cfg.(VertexAIProvider.max_output_tokens)
        <= model_config.(VertexAIProvider.max_tokens))%Z
    /\ cfg.(VertexAIProvider.temperature) = temperature
    /\ cfg.(VertexAIProvider.top_p) = 0.95%float
    /\ cfg.(VertexAIProvider.top_k) = 40%Z.
Proof.
  unfold VertexAIProvider.try_block.
  destruct (PyDict.get model_name VertexAIProvider.available_models)
    as [model_config|]; [|discriminate].
  intros H. injection H as _ _ <- _. exists model_config. cbn.
  repeat split. apply Z.le_min_r.
Qed.

Lemma generation_config_of_request_witness :
  let cfg := {| VertexAIProvider.max_output_tokens := 8192;
                VertexAIProvider.temperature := 1.5;
                VertexAIProvider.top_p := 0.95;
                VertexAIProvider.top_k := 40 |} in
  exists model_config,
    PyDict.get (py "gemini-flash") VertexAIProvider.available_models
    = Some model_config
    /\ cfg.(VertexAIProvider.max_output_tokens)
       = Z.min 100000 model_config.(VertexAIProvider.max_tokens)
    /\ (cfg.(VertexAIProvider.max_output_tokens)
        <= model_config.(VertexAIProvider.max_tokens))%Z
    /\ cfg.(VertexAIProvider.temperature) = 1.5%float
    /\ cfg.(VertexAIProvider.top_p) = 0.95%float
    /\ cfg.(VertexAIProvider.top_k) = 40%Z.
Proof.
  exact (generation_config_of_request lionspace (py "hello")
           (py "gemini-flash") 100000 1.5 false _ _
           {| VertexAIProvider.max_output_tokens := 8192;
              VertexAIProvider.temperature := 1.5;
              VertexAIProvider.top_p := 0.95;
              VertexAIProvider.top_k := 40 |} _ eq_refl).
Defined.

(** C2. [generate_response] returns a record on every input. When its
    [try] block raises, the record has [success] false, [error] the text
    of the exception and [response] [None]; otherwise [success] is true.
    For a model name outside the registry the block raises before any
    request, and the error text contains the name and each registered
    name. *)
Theorem generate_response_never_raises
        (generate_content : pystr -> pystr -> VertexAIProvider.generation_config
                            -> VertexAIProvider.api_reply)
        (self : VertexAIProvider.provider) (prompt model_name : pystr)
        (max_tokens : Z) (temperature : float) (enable_hebrew : bool) :
  let block := VertexAIProvider.try_block self prompt model_name max_tokens
                 temperature enable_hebrew in
  let r := VertexAIProvider.generate_response generate_content self prompt
             model_name max_tokens temperature enable_hebrew in
  match VertexAIProvider.run_prog generate_content block with
  | Raises e =>
    VertexAIProvider.success r = false
    /\ VertexAIProvider.error r = Some (exn_str e)
    /\ VertexAIProvider.response r = None
  | Returns r' => r = r' /\ VertexAIProvider.success r = true
  end
  /\ (PyDict.get model_name VertexAIProvider.available_models = None ->
      block = VertexAIProvider.Done
                (Raises (VertexAIProvider.unknown_model_error model_name))
      /\ VertexAIProvider.success r = false
      /\ VertexAIProvider.response r = None
      /\ exists msg,
          VertexAIProvider.error r = Some msg
          /\ contains msg model_name
          /\ Forall (fun valid => contains msg valid)
                    (PyDict.keys VertexAIProvider.available_models)).
Proof.
  intros block r. split.
  - subst r. unfold VertexAIProvider.generate_response. fold block.
    destruct (VertexAIProvider.run_prog generate_content block) as [r'|e] eqn:E.
    + split; [reflexivity|].
      subst block. unfold VertexAIProvider.try_block in E.
      destruct (PyDict.get model_name VertexAIProvider.available_models);
        [|discriminate].
      cbn in E. destruct (generate_content _ _ _); [|discriminate].
      injection E as <-. reflexivity.
    + repeat split.
  - intros Hnone. subst r block.
    unfold VertexAIProvider.generate_response, VertexAIProvider.try_block.
    rewrite Hnone. cbn [VertexAIProvider.run_prog].
    repeat split.
    exists (exn_str (VertexAIProvider.unknown_model_error model_name)).
    split; [reflexivity|]. apply unknown_model_error_mentions.
Qed.

Lemma generate_response_never_raises_witness :
  let r := VertexAIProvider.generate_response
             (fun _ _ _ => Returns (Some (py "ok")))
             lionspace (py "hello") (py "gpt-4") 1024 0.7 true in
  VertexAIProvider.try_block lionspace (py "hello") (py "gpt-4") 1024 0.7 true
  = VertexAIProvider.Done
      (Raises (VertexAIProvider.unknown_model_error (py "gpt-4")))
  /\ VertexAIProvider.success r = false
  /\ VertexAIProvider.response r = None
  /\ exists msg,
      VertexAIProvider.error r = Some msg
      /\ contains msg (py "gpt-4")
      /\ Forall (fun valid => contains msg valid)
                (PyDict.keys VertexAIProvider.available_models).
Proof.
  exact (proj2 (generate_response_never_raises
                  (fun _ _ _ => Returns (Some (py "ok")))
                  lionspace (py "hello") (py "gpt-4") 1024 0.7 true)
               eq_refl).
Defined.

Example generate_response_service_failure :
  VertexAIProvider.generate_response
    (fun _ _ _ => Raises (mk_exn OtherException (py "429 quota exceeded")))
    lionspace (py "hello") (py "gemini-pro") 1024 0.7 true
  = VertexAIProvider.GenFailure (py "429 quota exceeded") (py "gemini-pro").
Proof. reflexivity. Qed.

Example generate_response_success :
  VertexAIProvider.generate_response
    (fun _ _ _ => Returns (Some (py "shalom  olam")))
    lionspace (py "hello") (py "gemini-pro") 1024 0.7 true
  = VertexAIProvider.GenSuccess (py "shalom  olam") (py "gemini-pro")
      (py "gemini-1.5-pro") 2 true
      {| VertexAIProvider.md_project_id := py "lionspace";
         VertexAIProvider.md_location := py "us-east1";
         VertexAIProvider.md_temperature := 0.7;
         VertexAIProvider.md_max_tokens := 1024 |}.
Proof. reflexivity. Qed.

(* ------------------------------------------------------------------ *)
(** ** The message flattener *)

Section FlattenerFacts.
Import DifyVertexAIIntegration.


Lemma append_part_app (acc : list pystr) (m : chat_message) :
  append_part acc m = acc ++ append_part [] m.
Proof.
  unfold append_part.
  repeat match goal with
         | |- context [if ?b then _ else _] => destruct b
         end; try reflexivity.
  now rewrite app_nil_r.
Qed.

Lemma fold_append_part (ms : list chat_message) (acc : list pystr) :
  fold_left append_part ms acc = acc ++ flat_map (append_part []) ms.
Proof.
  revert acc. induction ms as [|m ms IH]; intros acc; simpl.
  - now rewrite app_nil_r.
  - rewrite IH, (append_part_app acc m), <- app_assoc. reflexivity.
Qed.

Lemma append_part_tagged (rc : pystr * pystr) :
  append_part [] (tagged rc) = flatten_line rc.
Proof.
  destruct rc as [role content].
  unfold append_part, flatten_line, role_marker, tagged.
  change (PyDict.get_default (py "role") (py "user")
            [(py "role", fst (role, content));
             (py "content", snd (role, content))]) with role.
  change (PyDict.get_default (py "content") []
            [(py "role", fst (role, content));
             (py "content", snd (role, content))]) with content.
  cbn [fst snd].
  destruct (PyStr.eqb role (py "system")); [reflexivity|].
  destruct (PyStr.eqb role (py "user")); [reflexivity|].
  destruct (PyStr.eqb role (py "assistant")); reflexivity.
Qed.
End FlattenerFacts.

(** C8. On the dictionaries of a list of (role, content) pairs,
    [_messages_to_prompt] returns the parts of the retained messages, in
    the order of the input and separated by a blank line: a part is
    ["System: "], ["User: "] or ["Assistant: "] followed by the content,
    and a message with any other role gives no part. *)
Theorem messages_to_prompt_flattens (pairs : list (pystr * pystr)) :
  fold_left DifyVertexAIIntegration.append_part (map tagged pairs) []
  = flat_map flatten_line pairs
  /\ DifyVertexAIIntegration._messages_to_prompt (map tagged pairs)
     = flatten_spec pairs.
Proof.
  assert (H : fold_left DifyVertexAIIntegration.append_part (map tagged pairs) []
              = flat_map flatten_line pairs).
  { rewrite fold_append_part. simpl.
    induction pairs as [|rc pairs IH]; [reflexivity|].
    cbn [map flat_map]. rewrite IH, append_part_tagged. reflexivity. }
  split; [exact H|].
  unfold DifyVertexAIIntegration._messages_to_prompt, flatten_spec.
  rewrite H. reflexivity.
Qed.

Example messages_to_prompt_in_order :
  DifyVertexAIIntegration._messages_to_prompt
    (map tagged [(py "system", py "a"); (py "tool", py "x");
                 (py "user", py "b"); (py "assistant", py "c")])
  = py "System: a" ++ nl ++ nl ++ py "User: b" ++ nl ++ nl
    ++ py "Assistant: c".
Proof. reflexivity. Qed.

(** A message without a [role] key counts as a user message, one
    without [content] has the empty content. *)
Example messages_to_prompt_defaults :
  DifyVertexAIIntegration._messages_to_prompt
    [[(py "content", py "b")]; [(py "role", py "system")]]
  = py "User: b" ++ nl ++ nl ++ py "System: ".
Proof. reflexivity. Qed.

(* ------------------------------------------------------------------ *)
(** ** The integration layer *)

(** C10. [DifyVertexAIIntegration.generate_response] raises where the
    wrapper would return a failure record: [RuntimeError] when no provider
    was initialised, [ValueError] when the model is not in its table,
    [RuntimeError] with the wrapper's error text after ["Generation
    failed: "] when the wrapper returns a failure; when it returns, the
    wrapper succeeded. *)
Theorem dify_generate_response_raises
        (generate_content : pystr -> pystr -> VertexAIProvider.generation_config
                            -> VertexAIProvider.api_reply)
        (self : DifyVertexAIIntegration.integration) (model : pystr)
        (messages : list DifyVertexAIIntegration.chat_message)
        (parameters : DifyVertexAIIntegration.gen_parameters) (stream : bool) :
  let result := DifyVertexAIIntegration.generate_response generate_content
                  self model messages parameters stream in
  let wrapper vp :=
      VertexAIProvider.generate_response generate_content vp
        (DifyVertexAIIntegration._messages_to_prompt messages) model
        (match parameters.(DifyVertexAIIntegration.p_max_tokens) with
         | Some n => n | None => 1024%Z end)
        (match parameters.(DifyVertexAIIntegration.p_temperature) with
         | Some t => t | None => 0.7%float end)
        true in
  (self.(DifyVertexAIIntegration.vertex_provider) = None ->
   result = Raises (mk_exn RuntimeError
                      (py "Vertex AI provider not initialized")))
  /\ (forall vp,
         self.(DifyVertexAIIntegration.vertex_provider) = Some vp ->
         PyDict.mem model DifyVertexAIIntegration.model_configs = false ->
         result = Raises (mk_exn ValueError
                            (py "Model " ++ model ++ py " not supported")))
  /\ (forall vp error,
         self.(DifyVertexAIIntegration.vertex_provider) = Some vp ->
         PyDict.mem model DifyVertexAIIntegration.model_configs = true ->
         VertexAIProvider.success (wrapper vp) = false ->
         VertexAIProvider.error (wrapper vp) = Some error ->
         result = Raises (mk_exn RuntimeError
                            (py "Generation failed: " ++ error)))
  /\ (forall reply,
         result = Returns reply ->
         exists vp,
           self.(DifyVertexAIIntegration.vertex_provider) = Some vp
           /\ PyDict.mem model DifyVertexAIIntegration.model_configs = true
           /\ VertexAIProvider.success (wrapper vp) = true
           /\ VertexAIProvider.response (wrapper vp)
              = Some reply.(DifyVertexAIIntegration.message)
                          .(DifyVertexAIIntegration.content)).
Proof.
  intros result wrapper. subst result.
  unfold DifyVertexAIIntegration.generate_response.
  destruct (DifyVertexAIIntegration.vertex_provider self) as [vp0|].
  - split; [discriminate|].
    destruct (PyDict.mem model DifyVertexAIIntegration.model_configs); cbn [negb].
    + split; [discriminate|]. fold (wrapper vp0). split.
      * intros vp error Hvp _ Hfail Herr. injection Hvp as <-.
        destruct (wrapper vp0); [discriminate|].
        injection Herr as ->. reflexivity.
      * intros reply H. exists vp0.
        destruct (wrapper vp0); [|discriminate].
        injection H as <-. repeat split.
    + split; [reflexivity|]. split; [discriminate|]. discriminate.
  - split; [reflexivity|]. repeat split; discriminate.
Qed.


Lemma dify_generate_response_raises_witness :
  DifyVertexAIIntegration.generate_response quota_exceeded
    DifyVertexAIIntegration.create_dify_vertex_ai_integration
    (py "gemini-pro") [tagged (py "user", py "hi")] no_parameters false
  = Raises (mk_exn RuntimeError (py "Vertex AI provider not initialized"))
  /\ DifyVertexAIIntegration.generate_response quota_exceeded initialised
       (py "gpt-4") [tagged (py "user", py "hi")] no_parameters false
     = Raises (mk_exn ValueError (py "Model gpt-4 not supported"))
  /\ DifyVertexAIIntegration.generate_response quota_exceeded initialised
       (py "gemini-pro") [tagged (py "user", py "hi")] no_parameters false
     = Raises (mk_exn RuntimeError
                 (py "Generation failed: 429 quota exceeded"))
  /\ exists vp,
      initialised.(DifyVertexAIIntegration.vertex_provider) = Some vp
      /\ PyDict.mem (py "gemini-flash") DifyVertexAIIntegration.model_configs
         = true
      /\ VertexAIProvider.success
           (VertexAIProvider.generate_response shalom_service vp
              (DifyVertexAIIntegration._messages_to_prompt
                 [tagged (py "user", py "hi")])
              (py "gemini-flash") 1024 0.7 true)
         = true
      /\ VertexAIProvider.response
           (VertexAIProvider.generate_response shalom_service vp
              (DifyVertexAIIntegration._messages_to_prompt
                 [tagged (py "user", py "hi")])
              (py "gemini-flash") 1024 0.7 true)
         = Some (py "shalom olam").
Proof.
  split; [|split; [|split]]; cycle 3.
  - exact (proj2 (proj2 (proj2 (dify_generate_response_raises shalom_service
                                  initialised (py "gemini-flash")
                                  [tagged (py "user", py "hi")]
                                  no_parameters false)))
                 shalom_answer eq_refl).
  - exact (proj1 (dify_generate_response_raises quota_exceeded
                    DifyVertexAIIntegration.create_dify_vertex_ai_integration
                    (py "gemini-pro") [tagged (py "user", py "hi")]
                    no_parameters false) eq_refl).
  - exact (proj1 (proj2 (dify_generate_response_raises quota_exceeded
                           initialised (py "gpt-4")
                           [tagged (py "user", py "hi")] no_parameters false))
                 lionspace eq_refl eq_refl).
  - exact (proj1 (proj2 (proj2 (dify_generate_response_raises quota_exceeded
                                  initialised (py "gemini-pro")
                                  [tagged (py "user", py "hi")]
                                  no_parameters false)))
                 lionspace (py "429 quota exceeded") eq_refl eq_refl eq_refl
                 eq_refl).
Defined.

Example dify_generate_response_returns :
  DifyVertexAIIntegration.generate_response shalom_service initialised
    (py "gemini-flash") [tagged (py "user", py "hi")] no_parameters false
  = Returns shalom_answer.
Proof. reflexivity. Qed.

(* ------------------------------------------------------------------ *)
(** ** The agent-state router *)

Module RouterFacts.
Import Orchestrator.


Section Steps.
Variable json_loads : pystr -> option json.
Variable format_json : json -> pystr.

Let agents := Orchestrator.agents json_loads format_json.

Lemma agents_get_cases (node : pystr) (h : step_fn) :
  PyDict.get node agents = Some h ->
  (node = py "planner" /\ h = planner_logic json_loads)
  \/ (node = py "researcher" /\ h = researcher_logic json_loads format_json)
  \/ (node = py "coder" /\ h = coder_logic json_loads format_json)
  \/ (node = py "reviewer" /\ h = reviewer_logic json_loads format_json).
Proof.
  unfold agents, Orchestrator.agents. cbn [PyDict.get].
  destruct (PyStr.eqb node (py "planner")) eqn:E1;
    [apply pystr_eqb_eq in E1; intros [= <-]; auto|].
  destruct (PyStr.eqb node (py "researcher")) eqn:E2;
    [apply pystr_eqb_eq in E2; intros [= <-]; auto|].
  destruct (PyStr.eqb node (py "coder")) eqn:E3;
    [apply pystr_eqb_eq in E3; intros [= <-]; auto|].
  destruct (PyStr.eqb node (py "reviewer")) eqn:E4;
    [apply pystr_eqb_eq in E4; intros [= <-]; auto 6|].
  discriminate.
Qed.

(** What a step appends, whichever branch it takes. *)
Ltac step_cases llm_invoke :=
  match goal with
  | |- context [llm_invoke ?p] =>
    let reply := fresh "reply" in
    let e := fresh "e" in
    let Hreply := fresh "Hreply" in
    let Hjson := fresh "Hjson" in
    destruct (llm_invoke p) as [reply|e] eqn:Hreply;
    [destruct (json_loads reply) as [[| | | | | |?result]|] eqn:Hjson|]
  end.

Lemma step_appends_reply (node : pystr) (h : step_fn)
      (llm_invoke : chat_model) (state : AgentState) :
  PyDict.get node agents = Some h ->
  (forall update,
      h llm_invoke state = Returns update ->
      exists p reply,
        llm_invoke p = Returns reply
        /\ update.(u_messages) = Some (state.(messages) ++ [AIMessage reply]))
  /\ (forall e, h llm_invoke state = Raises e ->
                exists p, llm_invoke p = Raises e).
Proof.
  intros Hget.
  destruct (agents_get_cases node h Hget)
    as [[_ ->]|[[_ ->]|[[_ ->]|[_ ->]]]];
    [unfold planner_logic | unfold researcher_logic
     | unfold coder_logic | unfold reviewer_logic];
    step_cases llm_invoke;
    (split; [intros update [= <-] | intros e' [= ]]);
    try (subst; eauto; fail);
    try (do 2 eexists; split; [exact Hreply | reflexivity]).
Qed.

Lemma merge_messages (state : AgentState) (update : StateUpdate) (l : list chat_turn) :
  update.(u_messages) = Some l -> (merge state update).(messages) = l.
Proof. unfold merge. cbn. now intros ->. Qed.

Lemma merge_next_agent (state : AgentState) (update : StateUpdate) (v : json) :
  update.(u_next_agent) = Some v -> (merge state update).(next_agent) = v.
Proof. unfold merge. cbn. now intros ->. Qed.

(** The engine, for any sentinel that is not the name of a step. *)
Variable END : pystr.
Hypothesis END_fresh : PyDict.mem END agents = false.
Variable llm : nat -> prompt -> outcome pystr.

Let route_next := Orchestrator.route_next json_loads format_json END.
Let path_map := Orchestrator.path_map json_loads format_json END.
Let invoke_from := Orchestrator.invoke_from json_loads format_json END llm.

Lemma END_not_agent :
  PyStr.eqb END (py "planner") = false
  /\ PyStr.eqb END (py "researcher") = false
  /\ PyStr.eqb END (py "coder") = false
  /\ PyStr.eqb END (py "reviewer") = false.
Proof.
  pose proof END_fresh as H.
  unfold PyDict.mem, agents, Orchestrator.agents in H. cbn [PyDict.get] in H.
  destruct (PyStr.eqb END (py "planner")); [discriminate|].
  destruct (PyStr.eqb END (py "researcher")); [discriminate|].
  destruct (PyStr.eqb END (py "coder")); [discriminate|].
  destruct (PyStr.eqb END (py "reviewer")); [discriminate|].
  auto.
Qed.

Lemma path_map_registered (name : pystr) :
  In name visits_all_once ->
  PyDict.get name path_map = Some name /\ PyStr.eqb name END = false.
Proof.
  destruct END_not_agent as (E1 & E2 & E3 & E4).
  unfold visits_all_once. simpl.
  intros [<-|[<-|[<-|[<-|[]]]]]; (split; [reflexivity|]);
    rewrite pystr_eqb_sym; assumption.
Qed.

Lemma invoke_from_step (fuel calls : nat) (node : pystr) (h : step_fn)
      (state : AgentState) (update : StateUpdate) :
  PyDict.get node agents = Some h ->
  h (llm calls) state = Returns update ->
  invoke_from (S fuel) calls node state
  = match route_next (merge state update) with
    | Raises e => ([(node, state)], Some (Raises e))
    | Returns r =>
      match PyDict.get r path_map with
      | None =>
        ([(node, state)], Some (Raises (mk_exn KeyError (repr_plain r))))
      | Some dest =>
        if PyStr.eqb dest END
        then ([(node, state)], Some (Returns (merge state update)))
        else
          let (trace, res) :=
            invoke_from fuel (S calls) dest (merge state update) in
          ((node, state) :: trace, res)
      end
    end.
Proof.
  intros Hget Hstep. unfold invoke_from. cbn [Orchestrator.invoke_from].
  fold agents. rewrite Hget, Hstep. reflexivity.
Qed.

(** A step that names a registered successor hands over to it. *)
Lemma invoke_from_advance (fuel calls : nat) (node next : pystr) (h : step_fn)
      (state : AgentState) (update : StateUpdate) :
  PyDict.get node agents = Some h ->
  h (llm calls) state = Returns update ->
  update.(u_next_agent) = Some (JString next) ->
  In next visits_all_once ->
  invoke_from (S fuel) calls node state
  = ((node, state)
       :: fst (invoke_from fuel (S calls) next (merge state update)),
     snd (invoke_from fuel (S calls) next (merge state update))).
Proof.
  intros Hget Hstep Hnext Hin.
  rewrite (invoke_from_step fuel calls node h state update Hget Hstep).
  unfold route_next, Orchestrator.route_next.
  rewrite (merge_next_agent state update _ Hnext).
  fold agents.
  assert (Hmem : PyDict.mem next agents = true).
  { revert Hin. unfold visits_all_once. simpl.
    intros [<-|[<-|[<-|[<-|[]]]]]; reflexivity. }
  rewrite Hmem.
  destruct (path_map_registered next Hin) as [-> ->].
  destruct (invoke_from fuel (S calls) next (merge state update)).
  reflexivity.
Qed.

(** A step that names anything else ends the run. *)
Lemma invoke_from_finish (fuel calls : nat) (node next : pystr) (h : step_fn)
      (state : AgentState) (update : StateUpdate) :
  PyDict.get node agents = Some h ->
  h (llm calls) state = Returns update ->
  update.(u_next_agent) = Some (JString next) ->
  PyDict.mem next agents = false ->
  route_next (merge state update) = Returns END
  /\ exists res,
      invoke_from (S fuel) calls node state = ([(node, state)], Some res)
      /\ (END = py "END" -> res = Returns (merge state update)).
Proof.
  intros Hget Hstep Hnext Hmem.
  rewrite (invoke_from_step fuel calls node h state update Hget Hstep).
  unfold route_next, Orchestrator.route_next.
  rewrite (merge_next_agent state update _ Hnext).
  fold agents. rewrite Hmem. split; [reflexivity|].
  destruct END_not_agent as (E1 & E2 & E3 & E4).
  unfold path_map, Orchestrator.path_map, Orchestrator.agents.
  cbn [PyDict.keys map fst].
  change (PyDict.set (py "END") END _)
    with [(py "planner", py "planner"); (py "researcher", py "researcher");
          (py "coder", py "coder"); (py "reviewer", py "reviewer");
          (py "END", END)].
  cbn [PyDict.get]. rewrite E1, E2, E3, E4.
  destruct (PyStr.eqb END (py "END")) eqn:E5.
  - rewrite pystr_eqb_refl. eexists. split; [reflexivity|]. reflexivity.
  - eexists. split; [reflexivity|].
    intros ->. rewrite pystr_eqb_refl in E5. discriminate.
Qed.

(** Four steps, each naming the next one, then a name that is not
    registered: the run visits each step once and stops. *)
Lemma linear_run (fuel : nat) (state : AgentState) :
  (forall calls st, exists update,
        planner_logic json_loads (llm calls) st = Returns update
        /\ update.(u_next_agent) = Some (JString (py "researcher"))) ->
  (forall calls st, exists update,
        researcher_logic json_loads format_json (llm calls) st = Returns update
        /\ update.(u_next_agent) = Some (JString (py "coder"))) ->
  (forall calls st, exists update,
        coder_logic json_loads format_json (llm calls) st = Returns update
        /\ update.(u_next_agent) = Some (JString (py "reviewer"))) ->
  (forall calls st, exists update,
        reviewer_logic json_loads format_json (llm calls) st = Returns update
        /\ update.(u_next_agent) = Some (JString (py "END"))) ->
  (4 <= fuel)%nat ->
  map fst (fst (invoke_from fuel 0 (py "planner") state)) = visits_all_once
  /\ exists res, snd (invoke_from fuel 0 (py "planner") state) = Some res.
Proof.
  intros Hplan Hres Hcode Hrev Hfuel.
  destruct fuel as [|[|[|[|fuel]]]]; try lia.
  destruct (Hplan 0%nat state) as (u0 & Hs0 & Hn0).
  rewrite (invoke_from_advance _ 0 (py "planner") (py "researcher") _ state u0
             eq_refl Hs0 Hn0) by (unfold visits_all_once; simpl; auto).
  destruct (Hres 1%nat (merge state u0)) as (u1 & Hs1 & Hn1).
  rewrite (invoke_from_advance _ 1 (py "researcher") (py "coder") _ _ u1
             eq_refl Hs1 Hn1) by (unfold visits_all_once; simpl; auto).
  destruct (Hcode 2%nat (merge (merge state u0) u1)) as (u2 & Hs2 & Hn2).
  rewrite (invoke_from_advance _ 2 (py "coder") (py "reviewer") _ _ u2
             eq_refl Hs2 Hn2) by (unfold visits_all_once; simpl; auto).
  destruct (Hrev 3%nat (merge (merge (merge state u0) u1) u2))
    as (u3 & Hs3 & Hn3).
  destruct (invoke_from_finish fuel 3 (py "reviewer") (py "END") _ _ u3
              eq_refl Hs3 Hn3 eq_refl) as (_ & res & -> & _).
  cbn [fst snd]. split; [reflexivity|]. now exists res.
Qed.

(** Whatever way a run ends, the state handed to its [i]-th step holds
    the initial history followed by [i] replies, and so does, with one
    reply for each step, the state that the run returns. *)
Lemma invoke_from_appends (fuel : nat) :
  forall (calls : nat) (node : pystr) (state : AgentState)
         (trace : list (pystr * AgentState))
         (res : option (outcome AgentState)),
    invoke_from fuel calls node state = (trace, res) ->
    (forall i visited st,
        nth_error trace i = Some (visited, st) ->
        exists replies,
          List.length replies = i
          /\ st.(messages) = state.(messages) ++ map AIMessage replies)
    /\ (forall final,
           res = Some (Returns final) ->
           exists replies,
             List.length replies = List.length trace
             /\ final.(messages) = state.(messages) ++ map AIMessage replies).
Proof.
  assert (Hhead : forall (node : pystr) (state : AgentState) i visited st,
             nth_error [(node, state)] i = Some (visited, st) ->
             exists replies,
               List.length replies = i
               /\ st.(messages) = state.(messages) ++ map AIMessage replies).
  { intros node state [|[|i]] visited st; try discriminate.
    intros [= _ <-]. exists []. now rewrite app_nil_r. }
  induction fuel as [|fuel IH]; intros calls node state trace res;
    unfold invoke_from; cbn [Orchestrator.invoke_from].
  { intros [= <- <-]. split; [intros [|i]|]; discriminate. }
  fold agents.
  destruct (PyDict.get node agents) as [h|] eqn:Hget.
  2:{ intros [= <- <-]. split; [intros [|i]|]; discriminate. }
  destruct (h (llm calls) state) as [update|e] eqn:Hstep.
  2:{ intros [= <- <-]. split; [apply Hhead | discriminate]. }
  destruct (proj1 (step_appends_reply node h (llm calls) state Hget)
                  update Hstep) as (p & reply & _ & Hmsgs).
  apply (merge_messages state update) in Hmsgs.
  destruct (Orchestrator.route_next json_loads format_json END
              (merge state update)) as [r|e].
  2:{ intros [= <- <-]. split; [apply Hhead | discriminate]. }
  destruct (PyDict.get r (Orchestrator.path_map json_loads format_json END))
    as [dest|].
  2:{ intros [= <- <-]. split; [apply Hhead | discriminate]. }
  destruct (PyStr.eqb dest END).
  - intros [= <- <-]. split; [apply Hhead|].
    intros final [= <-]. exists [reply]. now split.
  - fold invoke_from.
    destruct (invoke_from fuel (S calls) dest (merge state update))
      as [trace' res'] eqn:Hrec.
    intros [= <- <-].
    destruct (IH _ _ _ _ _ Hrec) as [Hvisits Hfinal].
    split.
    + intros [|i] visited st; cbn [nth_error].
      * intros [= _ <-]. exists []. now rewrite app_nil_r.
      * intros Hnth.
        destruct (Hvisits i visited st Hnth) as (replies & Hlen & Hst).
        exists (reply :: replies). rewrite Hst, Hmsgs, <- app_assoc.
        split; [simpl; now rewrite Hlen | reflexivity].
    + intros final Hres.
      destruct (Hfinal final Hres) as (replies & Hlen & Hst).
      exists (reply :: replies). rewrite Hst, Hmsgs, <- app_assoc.
      split; [simpl; now rewrite Hlen | reflexivity].
Qed.

End Steps.
End RouterFacts.

Import RouterFacts.

Lemma run_trace_result (json_loads : pystr -> option json)
      (format_json : json -> pystr) (END : pystr)
      (llm : nat -> prompt -> outcome pystr) (fuel : nat) (user_input : pystr) :
  let walk := invoke_from json_loads format_json END llm fuel 0
                (py "planner") (fresh_state user_input) in
  fst (run json_loads format_json END llm fuel user_input) = fst walk
  /\ (forall res, snd walk = Some res ->
                  exists result,
                    snd (run json_loads format_json END llm fuel user_input)
                    = Some result).
Proof.
  intros walk. unfold run, invoke. fold (fresh_state user_input). fold walk.
  destruct walk as [trace res]. cbn [fst snd]. split; [reflexivity|].
  intros r ->. destruct r; eexists; reflexivity.
Qed.

(** C3. When the reply of the model is not valid JSON, a step returns
    an update without raising: the reply appended to the history, the
    context as it was, and as next step its fixed successor (researcher
    after planner, coder after researcher, reviewer after coder, ["END"]
    after reviewer, which the router maps to the terminal sentinel). So a
    run in which no reply is valid JSON runs the four steps once each and
    stops after the review. *)
Theorem invalid_json_takes_default_successor
        (json_loads : pystr -> option json) (format_json : json -> pystr)
        (END : pystr) (llm : nat -> prompt -> outcome pystr) :
  (forall (llm_invoke : chat_model) (state : AgentState) (reply : pystr),
      json_loads reply = None ->
      (llm_invoke (planner_messages state) = Returns reply ->
       planner_logic json_loads llm_invoke state
       = Returns (fallback_update state reply (py "researcher")))
      /\ (llm_invoke (researcher_messages format_json state) = Returns reply ->
          researcher_logic json_loads format_json llm_invoke state
          = Returns (fallback_update state reply (py "coder")))
      /\ (llm_invoke (coder_messages format_json state) = Returns reply ->
          coder_logic json_loads format_json llm_invoke state
          = Returns (fallback_update state reply (py "reviewer")))
      /\ (llm_invoke (reviewer_messages format_json state) = Returns reply ->
          reviewer_logic json_loads format_json llm_invoke state
          = Returns (fallback_update state reply (py "END"))
          /\ route_next json_loads format_json END
               (merge state (fallback_update state reply (py "END")))
             = Returns END))
  /\ (PyDict.mem END (agents json_loads format_json) = false ->
      (forall n p, exists reply,
            llm n p = Returns reply /\ json_loads reply = None) ->
      forall (fuel : nat) (user_input : pystr),
        (4 <= fuel)%nat ->
        map fst (fst (run json_loads format_json END llm fuel user_input))
        = visits_all_once
        /\ exists result,
            snd (run json_loads format_json END llm fuel user_input)
            = Some result).
Proof.
  split.
  - intros llm_invoke state reply Hjson.
    unfold planner_logic, researcher_logic, coder_logic, reviewer_logic.
    split; [|split; [|split]]; intros Hreply; rewrite Hreply, Hjson;
      [reflexivity | reflexivity | reflexivity |].
    split; [reflexivity|].
    unfold route_next, merge, fallback_update. cbn. reflexivity.
  - intros Hend Hllm fuel user_input Hfuel.
    destruct (run_trace_result json_loads format_json END llm fuel user_input)
      as [-> Hsnd].
    assert (Hwalk := linear_run json_loads format_json END Hend llm fuel
                       (fresh_state user_input)).
    destruct Hwalk as [Htrace [res Hres]]; try assumption.
    + intros calls st. unfold planner_logic.
      destruct (Hllm calls (planner_messages st)) as (reply & -> & ->).
      eexists. split; reflexivity.
    + intros calls st. unfold researcher_logic.
      destruct (Hllm calls (researcher_messages format_json st))
        as (reply & -> & ->).
      eexists. split; reflexivity.
    + intros calls st. unfold coder_logic.
      destruct (Hllm calls (coder_messages format_json st))
        as (reply & -> & ->).
      eexists. split; reflexivity.
    + intros calls st. unfold reviewer_logic.
      destruct (Hllm calls (reviewer_messages format_json st))
        as (reply & -> & ->).
      eexists. split; reflexivity.
    + split; [exact Htrace | exact (Hsnd res Hres)].
Qed.

Lemma invalid_json_takes_default_successor_witness :
  (reviewer_logic JsonRef.json_loads JsonRef.format_json
     (always prose_reply 3) (fresh_state (py "task"))
   = Returns (fallback_update (fresh_state (py "task")) prose_reply (py "END"))
   /\ route_next JsonRef.json_loads JsonRef.format_json JsonRef.END
        (merge (fresh_state (py "task"))
           (fallback_update (fresh_state (py "task")) prose_reply (py "END")))
      = Returns JsonRef.END)
  /\ map fst (fst (run JsonRef.json_loads JsonRef.format_json JsonRef.END
                     (always prose_reply) 10 (py "write a fibonacci function")))
     = visits_all_once
  /\ exists result,
      snd (run JsonRef.json_loads JsonRef.format_json JsonRef.END
             (always prose_reply) 10 (py "write a fibonacci function"))
      = Some result.
Proof.
  split.
  - exact (proj2 (proj2 (proj2
             (proj1 (invalid_json_takes_default_successor JsonRef.json_loads
                       JsonRef.format_json JsonRef.END (always prose_reply))
                    (always prose_reply 3) (fresh_state (py "task"))
                    prose_reply eq_refl)))
             eq_refl).
  - apply (proj2 (invalid_json_takes_default_successor JsonRef.json_loads
                    JsonRef.format_json JsonRef.END (always prose_reply))).
    + reflexivity.
    + intros n p. exists prose_reply. split; reflexivity.
    + repeat constructor.
Defined.

(** C4. In the review step, when the reply parses to a dictionary whose
    [approved] entry is [true], the update selects ["END"] whatever the
    dictionary holds under [next_agent], and the router answers the
    terminal sentinel on the merged state. *)
Theorem approved_review_selects_END
        (json_loads : pystr -> option json) (format_json : json -> pystr)
        (END : pystr) (llm_invoke : chat_model) (state : AgentState)
        (reply : pystr) (result : PyDict.dict json) :
  llm_invoke (reviewer_messages format_json state) = Returns reply ->
  json_loads reply = Some (JObject result) ->
  PyDict.get (py "approved") result = Some (JBool true) ->
  exists update,
    reviewer_logic json_loads format_json llm_invoke state = Returns update
    /\ update.(u_next_agent) = Some (JString (py "END"))
    /\ (merge state update).(next_agent) = JString (py "END")
    /\ route_next json_loads format_json END (merge state update)
       = Returns END.
Proof.
  intros Hreply Hjson Happroved.
  unfold reviewer_logic. rewrite Hreply, Hjson.
  unfold PyDict.get_default at 1. rewrite Happroved. cbn [truthy].
  eexists. split; [reflexivity|]. split; [reflexivity|].
  split; [reflexivity|].
  unfold route_next, merge. cbn. reflexivity.
Qed.

Lemma approved_review_selects_END_witness :
  exists update,
    reviewer_logic JsonRef.json_loads JsonRef.format_json
      (always approved_but_replan_reply 3) (fresh_state (py "task"))
    = Returns update
    /\ update.(u_next_agent) = Some (JString (py "END"))
    /\ (merge (fresh_state (py "task")) update).(next_agent)
       = JString (py "END")
    /\ route_next JsonRef.json_loads JsonRef.format_json JsonRef.END
         (merge (fresh_state (py "task")) update)
       = Returns JsonRef.END.
Proof.
  exact (approved_review_selects_END JsonRef.json_loads JsonRef.format_json
           JsonRef.END (always approved_but_replan_reply 3)
           (fresh_state (py "task")) approved_but_replan_reply
           [(py "approved", JBool true); (py "next_agent", JString (py "planner"))]
           eq_refl eq_refl eq_refl).
Defined.

(** Without the approval the same reply sends the run back to the
    planner. *)
Example rejected_review_follows_next_agent :
  exists update,
    reviewer_logic JsonRef.json_loads JsonRef.format_json
      (fun _ => Returns (py "{" ++ dq ++ py "approved" ++ dq ++ py ": false, "
                          ++ dq ++ py "next_agent" ++ dq ++ py ": "
                          ++ dq ++ py "coder" ++ dq ++ py "}"))
      (fresh_state (py "task"))
    = Returns update
    /\ update.(u_next_agent) = Some (JString (py "coder")).
Proof. eexists. split; reflexivity. Qed.

(** C5. When every reply of the model is the text [{"approved": true}],
    which [json.loads] turns into the dictionary with the one entry
    [approved] (true), and the terminal sentinel is not the name of a
    step, the run visits planner, researcher, coder and reviewer once
    each, in this order, and stops: no step finds a [next_agent] entry,
    so the first three take their default, and the reviewer finds the
    approval. *)
Theorem approved_run_is_single_pass
        (json_loads : pystr -> option json) (format_json : json -> pystr)
        (END : pystr) (llm : nat -> prompt -> outcome pystr)
        (fuel : nat) (user_input : pystr) :
  PyDict.mem END (agents json_loads format_json) = false ->
  json_loads approved_reply = Some (JObject [(py "approved", JBool true)]) ->
  (forall n p, llm n p = Returns approved_reply) ->
  (4 <= fuel)%nat ->
  map fst (fst (run json_loads format_json END llm fuel user_input))
  = visits_all_once
  /\ exists result,
      snd (run json_loads format_json END llm fuel user_input) = Some result.
Proof.
  intros Hend Hjson Hllm Hfuel.
  destruct (run_trace_result json_loads format_json END llm fuel user_input)
    as [-> Hsnd].
  assert (Hwalk := linear_run json_loads format_json END Hend llm fuel
                     (fresh_state user_input)).
  destruct Hwalk as [Htrace [res Hres]]; try assumption.
  - intros calls st. unfold planner_logic. rewrite Hllm, Hjson.
    eexists. split; reflexivity.
  - intros calls st. unfold researcher_logic. rewrite Hllm, Hjson.
    eexists. split; reflexivity.
  - intros calls st. unfold coder_logic. rewrite Hllm, Hjson.
    eexists. split; reflexivity.
  - intros calls st. unfold reviewer_logic. rewrite Hllm, Hjson.
    eexists. split; reflexivity.
  - split; [exact Htrace | exact (Hsnd res Hres)].
Qed.

Lemma approved_run_is_single_pass_witness :
  map fst (fst (run JsonRef.json_loads JsonRef.format_json JsonRef.END
                  (always approved_reply) 4 (py "write a fibonacci function")))
  = visits_all_once
  /\ exists result,
      snd (run JsonRef.json_loads JsonRef.format_json JsonRef.END
             (always approved_reply) 4 (py "write a fibonacci function"))
      = Some result.
Proof.
  apply (approved_run_is_single_pass JsonRef.json_loads JsonRef.format_json
           JsonRef.END (always approved_reply) 4
           (py "write a fibonacci function")).
  - reflexivity.
  - reflexivity.
  - intros n p. reflexivity.
  - apply le_n.
Defined.

(** C9. Every registered step that returns has appended exactly the
    reply of the model to the history it was given, on the path where the
    reply parsed and on the path where it did not, and a step raises only
    what the call of the model raised. So, however a run ends, the state
    handed to its [i]-th step holds the initial history followed by [i]
    replies, and the state that a run returns holds one reply for each
    step run. *)
Theorem history_is_append_only
        (json_loads : pystr -> option json) (format_json : json -> pystr) :
  PyDict.keys (agents json_loads format_json) = visits_all_once
  /\ (forall (node : pystr) (h : step_fn) (llm_invoke : chat_model)
             (state : AgentState),
         PyDict.get node (agents json_loads format_json) = Some h ->
         (forall update,
             h llm_invoke state = Returns update ->
             exists p reply,
               llm_invoke p = Returns reply
               /\ update.(u_messages)
                  = Some (state.(messages) ++ [AIMessage reply])
               /\ (merge state update).(messages)
                  = state.(messages) ++ [AIMessage reply])
         /\ (forall e, h llm_invoke state = Raises e ->
                       exists p, llm_invoke p = Raises e))
  /\ (forall (END : pystr) (llm : nat -> prompt -> outcome pystr)
             (fuel calls : nat) (node : pystr) (state : AgentState)
             (trace : list (pystr * AgentState))
             (res : option (outcome AgentState)),
         invoke_from json_loads format_json END llm fuel calls node state
         = (trace, res) ->
         (forall i visited st,
             nth_error trace i = Some (visited, st) ->
             exists replies,
               List.length replies = i
               /\ st.(messages) = state.(messages) ++ map AIMessage replies)
         /\ (forall final,
                res = Some (Returns final) ->
                exists replies,
                  List.length replies = List.length trace
                  /\ final.(messages)
                     = state.(messages) ++ map AIMessage replies)).
Proof.
  split; [reflexivity|]. split.
  - intros node h llm_invoke state Hget.
    destruct (step_appends_reply json_loads format_json node h llm_invoke
                state Hget) as [Hret Hraise].
    split; [|exact Hraise].
    intros update Hstep.
    destruct (Hret update Hstep) as (p & reply & Hreply & Hmsgs).
    exists p, reply. split; [exact Hreply|]. split; [exact Hmsgs|].
    exact (merge_messages state update _ Hmsgs).
  - intros END llm fuel calls node state trace res.
    apply invoke_from_appends.
Qed.

Lemma history_is_append_only_witness :
  (exists p reply,
      always prose_reply 0 p = Returns reply
      /\ (fallback_update (fresh_state (py "task")) prose_reply
            (py "researcher")).(u_messages)
         = Some ((fresh_state (py "task")).(messages) ++ [AIMessage reply])
      /\ (merge (fresh_state (py "task"))
            (fallback_update (fresh_state (py "task")) prose_reply
               (py "researcher"))).(messages)
         = (fresh_state (py "task")).(messages) ++ [AIMessage reply])
  /\ (exists replies,
         List.length replies = 3%nat
         /\ prose_walk_review_state.(messages)
            = (fresh_state (py "task")).(messages) ++ map AIMessage replies).
Proof.
  split.
  - exact (proj1 (proj1 (proj2 (history_is_append_only JsonRef.json_loads
                                  JsonRef.format_json))
                        (py "planner") (planner_logic JsonRef.json_loads)
                        (always prose_reply 0) (fresh_state (py "task"))
                        eq_refl)
                 (fallback_update (fresh_state (py "task")) prose_reply
                    (py "researcher"))
                 eq_refl).
  - exact (proj1 (proj2 (proj2 (history_is_append_only JsonRef.json_loads
                                  JsonRef.format_json))
                        JsonRef.END (always prose_reply) 4%nat 0%nat
                        (py "planner") (fresh_state (py "task"))
                        (fst prose_walk) (snd prose_walk) eq_refl)
                 3%nat (py "reviewer") prose_walk_review_state eq_refl).
Defined.

Example prose_walk_history :
  prose_walk_review_state.(messages)
  = [HumanMessage (py "task"); AIMessage prose_reply; AIMessage prose_reply;
     AIMessage prose_reply].
Proof. reflexivity. Qed.

(* ------------------------------------------------------------------ *)
(** ** Further properties: dictionaries and word counts *)

Section DictFacts.
Context {V : Type}.

Lemma dict_get_set_same (k : pystr) (v : V) (d : PyDict.dict V) :
  PyDict.get k (PyDict.set k v d) = Some v.
Proof.
  induction d as [|[k' v'] d IH]; simpl.
  - now rewrite pystr_eqb_refl.
  - destruct (PyStr.eqb k k') eqn:E; simpl; rewrite E; [reflexivity|exact IH].
Qed.

Lemma dict_get_set_other (k k' : pystr) (v : V) (d : PyDict.dict V) :
  PyStr.eqb k' k = false ->
  PyDict.get k' (PyDict.set k v d) = PyDict.get k' d.
Proof.
  intros Hne. induction d as [|[k0 v0] d IH]; simpl.
  - now rewrite Hne.
  - destruct (PyStr.eqb k k0) eqn:E; simpl.
    + apply pystr_eqb_eq in E. subst k0. now rewrite Hne.
    + now rewrite IH.
Qed.

Lemma dict_mem_set (k k' : pystr) (v : V) (d : PyDict.dict V) :
  PyDict.mem k' d = true -> PyDict.mem k' (PyDict.set k v d) = true.
Proof.
  unfold PyDict.mem. destruct (PyStr.eqb k' k) eqn:E.
  - apply pystr_eqb_eq in E. subst k'. now rewrite dict_get_set_same.
  - now rewrite dict_get_set_other.
Qed.
End DictFacts.

Lemma count_words_bound (s : pystr) :
  forall in_word : bool,
    (2 * count_words in_word s
     <= List.length s + (if in_word then 0 else 1))%nat.
Proof.
  induction s as [|c s IH]; intros in_word; simpl.
  - destruct in_word; lia.
  - destruct (isspace c).
    + specialize (IH false). simpl in IH. destruct in_word; lia.
    + specialize (IH true). simpl in IH. destruct in_word; lia.
Qed.

Lemma split_len_zero (s : pystr) :
  split_len s = 0%nat <-> forallb isspace s = true.
Proof.
  unfold split_len. induction s as [|c s IH]; simpl; [tauto|].
  destruct (isspace c); simpl; [exact IH|]. split; discriminate.
Qed.

(* ------------------------------------------------------------------ *)
(** ** Further properties: the provider *)

(** X1. Whatever the prompt, the prepared prompt contains a Hebrew
    character, so preparing a prompt twice puts the second instruction
    block in front. *)
Theorem prepared_prompt_has_hebrew (prompt : pystr) :
  VertexAIProvider._contains_hebrew
    (VertexAIProvider._prepare_hebrew_prompt prompt) = true
  /\ VertexAIProvider._prepare_hebrew_prompt
       (VertexAIProvider._prepare_hebrew_prompt prompt)
     = VertexAIProvider.hebrew_instructions ++ nl ++ nl
       ++ VertexAIProvider._prepare_hebrew_prompt prompt.
Proof.
  assert (H : VertexAIProvider._contains_hebrew
                (VertexAIProvider._prepare_hebrew_prompt prompt) = true).
  { unfold VertexAIProvider._contains_hebrew,
      VertexAIProvider._prepare_hebrew_prompt.
    destruct (existsb VertexAIProvider.is_hebrew_char prompt) eqn:E;
      rewrite !existsb_app.
    - reflexivity.
    - rewrite E. reflexivity. }
  split; [exact H|].
  unfold VertexAIProvider._contains_hebrew in H.
  unfold VertexAIProvider._prepare_hebrew_prompt at 1. now rewrite H.
Qed.

(** X2. In a success record the token count is a count of words: twice
    the count is at most the length of the text plus one, and the count
    is zero exactly when the text has no character that is not a
    space. *)
Theorem tokens_used_counts_words
        (generate_content : pystr -> pystr -> VertexAIProvider.generation_config
                            -> VertexAIProvider.api_reply)
        (self : VertexAIProvider.provider) (prompt model_name : pystr)
        (max_tokens : Z) (temperature : float) (enable_hebrew : bool)
        (text model model_id : pystr) (tokens : nat) (hebrew : bool)
        (md : VertexAIProvider.metadata) :
  VertexAIProvider.generate_response generate_content self prompt model_name
    max_tokens temperature enable_hebrew
  = VertexAIProvider.GenSuccess text model model_id tokens hebrew md ->
  tokens = split_len text
  /\ (2 * tokens <= List.length text + 1)%nat
  /\ (tokens = 0%nat <-> forallb isspace text = true).
Proof.
  unfold VertexAIProvider.generate_response, VertexAIProvider.try_block.
  destruct (PyDict.get model_name VertexAIProvider.available_models)
    as [model_config|]; cbn [VertexAIProvider.run_prog]; [|discriminate].
  destruct (generate_content _ _ _) as [reply|e]; [|discriminate].
  intros [= <- _ _ <- _ _].
  destruct reply as [[|c t]|].
  - split; [reflexivity|]. split;
      [exact (count_words_bound [] false) | exact (split_len_zero [])].
  - split; [reflexivity|]. split;
      [exact (count_words_bound (c :: t) false)
      | exact (split_len_zero (c :: t))].
  - split; [reflexivity|]. split;
      [exact (count_words_bound [] false) | exact (split_len_zero [])].
Qed.

Lemma tokens_used_counts_words_witness :
  2%nat = split_len (py "shalom  olam")
  /\ (2 * 2 <= List.length (py "shalom  olam") + 1)%nat
  /\ (2%nat = 0%nat <-> forallb isspace (py "shalom  olam") = true).
Proof.
  exact (tokens_used_counts_words
           (fun _ _ _ => Returns (Some (py "shalom  olam")))
           lionspace (py "hello") (py "gemini-pro") 1024 0.7 true
           _ _ _ _ _ _ eq_refl).
Defined.

(** X3. [test_hebrew_capabilities] reports only successes. When the
    generation fails for a registered model, the failure record holds
    [None] under [response], the Hebrew check iterates over it, and the
    method raises a [TypeError] instead of returning; when it returns,
    there is one entry for each registered model, in the order of the
    registry, every entry has [success] true and no error, and its two
    measures are those of the generated text. *)
Theorem hebrew_test_reports_only_successes
        (generate_content : pystr -> pystr -> VertexAIProvider.generation_config
                            -> VertexAIProvider.api_reply)
        (self : VertexAIProvider.provider) :
  let attempt name :=
      VertexAIProvider.generate_response generate_content self
        VertexAIProvider.hebrew_test_prompt name 200 0.7 true in
  match VertexAIProvider.test_hebrew_capabilities generate_content self with
  | Returns results =>
    PyDict.keys results = PyDict.keys VertexAIProvider.available_models
    /\ forall name entry,
        PyDict.get name results = Some entry ->
        entry.(VertexAIProvider.cap_success) = true
        /\ entry.(VertexAIProvider.cap_error) = None
        /\ exists text,
            VertexAIProvider.response (attempt name) = Some text
            /\ VertexAIProvider.success (attempt name) = true
            /\ entry.(VertexAIProvider.has_hebrew_response)
               = VertexAIProvider._contains_hebrew text
            /\ entry.(VertexAIProvider.response_length) = List.length text
  | Raises e =>
    e = VertexAIProvider.none_not_iterable
    /\ exists name,
        In name (PyDict.keys VertexAIProvider.available_models)
        /\ VertexAIProvider.success (attempt name) = false
  end.
Proof.
  intros attempt. unfold VertexAIProvider.test_hebrew_capabilities.
  change (PyDict.keys VertexAIProvider.available_models)
    with [py "gemini-pro"; py "gemini-flash"].
  cbn [VertexAIProvider.test_models]. unfold VertexAIProvider.test_model.
  fold (attempt (py "gemini-pro")). fold (attempt (py "gemini-flash")).
  destruct (attempt (py "gemini-pro")) as [t1 m1 i1 n1 h1 d1|err1 m1] eqn:E1;
    cbn [VertexAIProvider.response VertexAIProvider.success
         VertexAIProvider.error].
  2:{ split; [reflexivity|]. exists (py "gemini-pro").
      split; [now left | now rewrite E1]. }
  destruct (attempt (py "gemini-flash")) as [t2 m2 i2 n2 h2 d2|err2 m2] eqn:E2;
    cbn [VertexAIProvider.response VertexAIProvider.success
         VertexAIProvider.error].
  2:{ split; [reflexivity|]. exists (py "gemini-flash").
      split; [right; now left | now rewrite E2]. }
  match goal with
  | |- context [PyDict.set ?k2 ?e2 (PyDict.set ?k1 ?e1 [])] =>
    change (PyDict.set k2 e2 (PyDict.set k1 e1 [])) with [(k1, e1); (k2, e2)]
  end.
  split; [reflexivity|].
  intros name entry. cbn [PyDict.get].
  destruct (PyStr.eqb name (py "gemini-pro")) eqn:N1.
  - apply pystr_eqb_eq in N1. subst name. intros [= <-].
    rewrite E1. cbn. repeat split. exists t1. repeat split.
  - destruct (PyStr.eqb name (py "gemini-flash")) eqn:N2; [|discriminate].
    apply pystr_eqb_eq in N2. subst name. intros [= <-].
    rewrite E2. cbn. repeat split. exists t2. repeat split.
Qed.

Example hebrew_test_raises_when_service_fails :
  VertexAIProvider.test_hebrew_capabilities quota_exceeded lionspace
  = Raises VertexAIProvider.none_not_iterable.
Proof. reflexivity. Qed.

Example hebrew_test_on_success :
  VertexAIProvider.test_hebrew_capabilities shalom_service lionspace
  = Returns
      [(py "gemini-pro",
        {| VertexAIProvider.cap_success := true;
           VertexAIProvider.has_hebrew_response := false;
           VertexAIProvider.response_length := 11;
           VertexAIProvider.cap_error := None |});
       (py "gemini-flash",
        {| VertexAIProvider.cap_success := true;
           VertexAIProvider.has_hebrew_response := false;
           VertexAIProvider.response_length := 11;
           VertexAIProvider.cap_error := None |})].
Proof. reflexivity. Qed.

(* ------------------------------------------------------------------ *)
(** ** Further properties: the integration layer *)

Lemma model_tables_agree (model : pystr) :
  PyDict.mem model DifyVertexAIIntegration.model_configs
  = PyDict.mem model VertexAIProvider.available_models.
Proof.
  unfold PyDict.mem, DifyVertexAIIntegration.model_configs,
    VertexAIProvider.available_models. cbn [PyDict.get].
  destruct (PyStr.eqb model (py "gemini-pro")); [reflexivity|].
  destruct (PyStr.eqb model (py "gemini-flash")); reflexivity.
Qed.

(** X4. With an initialised provider and a model of the table, the
    integration layer sends one request: the registered identifier of the
    model, the flattened messages with the Hebrew instructions added, the
    caller's temperature (0.7 when absent) and the smaller of the caller's
    maximum (1024 when absent) and the ceiling of the model. It returns the
    text of the service with its word counts, and raises a [RuntimeError]
    only when the service raised, never for an unknown model. *)
Theorem dify_generate_response_end_to_end
        (generate_content : pystr -> pystr -> VertexAIProvider.generation_config
                            -> VertexAIProvider.api_reply)
        (self : DifyVertexAIIntegration.integration)
        (vp : VertexAIProvider.provider) (model : pystr)
        (messages : list DifyVertexAIIntegration.chat_message)
        (parameters : DifyVertexAIIntegration.gen_parameters) (stream : bool) :
  self.(DifyVertexAIIntegration.vertex_provider) = Some vp ->
  PyDict.mem model DifyVertexAIIntegration.model_configs = true ->
  exists model_config,
    PyDict.get model VertexAIProvider.available_models = Some model_config
    /\ let flat := DifyVertexAIIntegration._messages_to_prompt messages in
       DifyVertexAIIntegration.generate_response generate_content self model
         messages parameters stream
       = match
           generate_content model_config.(VertexAIProvider.model_id)
             (VertexAIProvider._prepare_hebrew_prompt flat)
             {| VertexAIProvider.max_output_tokens :=
                  Z.min
                    (match parameters.(DifyVertexAIIntegration.p_max_tokens)
                     with Some n => n | None => 1024%Z end)
                    model_config.(VertexAIProvider.max_tokens);
                VertexAIProvider.temperature :=
                  match parameters.(DifyVertexAIIntegration.p_temperature)
                  with Some t => t | None => 0.7%float end;
                VertexAIProvider.top_p := 0.95;
                VertexAIProvider.top_k := 40 |}
         with
         | Raises e =>
           Raises (mk_exn RuntimeError
                     (py "Generation failed: " ++ exn_str e))
         | Returns text =>
           let answer := match text with Some t => t | None => [] end in
           Returns
             {| DifyVertexAIIntegration.model := model;
                DifyVertexAIIntegration.resp_usage :=
                  {| DifyVertexAIIntegration.prompt_tokens := split_len flat;
                     DifyVertexAIIntegration.completion_tokens :=
                       split_len answer;
                     DifyVertexAIIntegration.total_tokens :=
                       split_len flat + split_len answer |};
                DifyVertexAIIntegration.message :=
                  {| DifyVertexAIIntegration.role := py "assistant";
                     DifyVertexAIIntegration.content := answer |} |}
         end.
Proof.
  intros Hvp Hmem.
  assert (Hreg := Hmem). rewrite model_tables_agree in Hreg.
  unfold PyDict.mem in Hreg.
  destruct (PyDict.get model VertexAIProvider.available_models)
    as [model_config|] eqn:Hget; [|discriminate].
  exists model_config. split; [reflexivity|]. intros flat.
  unfold DifyVertexAIIntegration.generate_response.
  rewrite Hvp, Hmem. cbn [negb]. fold flat.
  unfold VertexAIProvider.generate_response, VertexAIProvider.try_block.
  rewrite Hget. cbn [VertexAIProvider.run_prog].
  destruct (generate_content _ _ _) as [[[|c t]|]|e]; reflexivity.
Qed.

Lemma dify_generate_response_end_to_end_witness :
  exists model_config,
    PyDict.get (py "gemini-flash") VertexAIProvider.available_models
    = Some model_config
    /\ DifyVertexAIIntegration.generate_response shalom_service initialised
         (py "gemini-flash") [tagged (py "user", py "hi")] no_parameters false
       = Returns shalom_answer.
Proof.
  destruct (dify_generate_response_end_to_end shalom_service initialised
              lionspace (py "gemini-flash") [tagged (py "user", py "hi")]
              no_parameters false eq_refl eq_refl)
    as (model_config & Hget & Hrun).
  exists model_config. split; [exact Hget|].
  rewrite Hrun. reflexivity.
Defined.

Section InitialisationFacts.
Variable Credentials : Type.
Variable from_service_account_file : pystr -> outcome Credentials.
Variable vertexai_init : pystr -> pystr -> option Credentials -> outcome unit.
Variable model_service_client : pystr -> outcome unit.
Variable named_temporary_file : pystr -> outcome pystr.

Let initialize_provider :=
  DifyVertexAIIntegration.initialize_provider Credentials
    from_service_account_file vertexai_init model_service_client
    named_temporary_file.

Lemma init_returns_provider (project_id location : pystr)
      (path : option pystr) (vp : VertexAIProvider.provider) :
  VertexAIProvider.__init__ Credentials from_service_account_file
    vertexai_init project_id location path = Returns vp ->
  vp = {| VertexAIProvider.project_id := project_id;
          VertexAIProvider.location := location |}.
Proof.
  unfold VertexAIProvider.__init__.
  destruct path as [[|c p]|];
    repeat match goal with
           | |- context [match ?x with Returns _ => _ | Raises _ => _ end] =>
             destruct x
           end; congruence.
Qed.

(** The two ways in which [initialize_provider] answers: the object is
    left as it was and the answer is [False], or the new provider is
    installed and the answer is the outcome of its validation. *)
Lemma initialize_provider_cases (self : DifyVertexAIIntegration.integration)
      (credentials : PyDict.dict pystr) :
  initialize_provider self credentials = (self, false)
  \/ exists c p,
      PyDict.get (py "project_id") credentials = Some (c :: p)
      /\ let vp :=
             {| VertexAIProvider.project_id := c :: p;
                VertexAIProvider.location :=
                  PyDict.get_default (py "location") (py "us-east1")
                    credentials |} in
         initialize_provider self credentials
         = (DifyVertexAIIntegration.with_provider self vp,
            VertexAIProvider.validation_success
              (VertexAIProvider.validate_configuration model_service_client
                 vp)).
Proof.
  unfold initialize_provider, DifyVertexAIIntegration.initialize_provider,
    DifyVertexAIIntegration.initialize_provider_try.
  destruct (PyDict.get (py "project_id") credentials) as [[|c p]|];
    [now left | | now left].
  match goal with
  | |- context [match ?path with Returns _ => _ | Raises _ => _ end] =>
    destruct path as [found|e]
  end; [|now left].
  destruct (VertexAIProvider.__init__ _ _ _ _ _ _) as [vp|e] eqn:Hinit;
    [|now left].
  apply init_returns_provider in Hinit. subst vp.
  right. exists c, p. split; [reflexivity|]. cbn zeta.
  destruct (VertexAIProvider.validation_success _); reflexivity.
Qed.
End InitialisationFacts.

(** X5. Without a [project_id], or with an empty one,
    [initialize_provider] answers [False] and leaves the object as it was,
    whatever the other credentials and whatever the cloud calls would
    do. *)
Theorem initialize_provider_requires_project_id
        (Credentials : Type)
        (from_service_account_file : pystr -> outcome Credentials)
        (vertexai_init : pystr -> pystr -> option Credentials -> outcome unit)
        (model_service_client : pystr -> outcome unit)
        (named_temporary_file : pystr -> outcome pystr)
        (self : DifyVertexAIIntegration.integration)
        (credentials : PyDict.dict pystr) :
  PyDict.get (py "project_id") credentials = None
  \/ PyDict.get (py "project_id") credentials = Some [] ->
  DifyVertexAIIntegration.initialize_provider Credentials
    from_service_account_file vertexai_init model_service_client
    named_temporary_file self credentials
  = (self, false).
Proof.
  unfold DifyVertexAIIntegration.initialize_provider,
    DifyVertexAIIntegration.initialize_provider_try.
  intros [H|H]; rewrite H; reflexivity.
Qed.

Lemma initialize_provider_requires_project_id_witness :
  DifyVertexAIIntegration.initialize_provider unit
    (fun _ => Returns tt) (fun _ _ _ => Returns tt) (fun _ => Returns tt)
    (fun _ => Returns (py "/tmp/key.json"))
    DifyVertexAIIntegration.create_dify_vertex_ai_integration
    [(py "location", py "us-east1")]
  = (DifyVertexAIIntegration.create_dify_vertex_ai_integration, false).
Proof.
  exact (initialize_provider_requires_project_id unit
           (fun _ => Returns tt) (fun _ _ _ => Returns tt)
           (fun _ => Returns tt) (fun _ => Returns (py "/tmp/key.json"))
           DifyVertexAIIntegration.create_dify_vertex_ai_integration
           [(py "location", py "us-east1")] (or_introl eq_refl)).
Defined.



(** X7. When [initialize_provider] answers [False], either the object
    is as it was, or the new provider has been installed all the same and
    it is its validation that failed: the creation of the client of the
    model service raised. In the second case the object counts as
    initialised for [generate_response]. *)
Theorem initialize_provider_false
        (Credentials : Type)
        (from_service_account_file : pystr -> outcome Credentials)
        (vertexai_init : pystr -> pystr -> option Credentials -> outcome unit)
        (model_service_client : pystr -> outcome unit)
        (named_temporary_file : pystr -> outcome pystr)
        (self self' : DifyVertexAIIntegration.integration)
        (credentials : PyDict.dict pystr) :
  DifyVertexAIIntegration.initialize_provider Credentials
    from_service_account_file vertexai_init model_service_client
    named_temporary_file self credentials
  = (self', false) ->
  self' = self
  \/ exists vp e,
      self'.(DifyVertexAIIntegration.vertex_provider) = Some vp
      /\ model_service_client
           (vp.(VertexAIProvider.location) ++ py "-aiplatform.googleapis.com")
         = Raises e
      /\ forall generate_content model messages parameters stream,
          DifyVertexAIIntegration.generate_response generate_content self'
            model messages parameters stream
          <> Raises (mk_exn RuntimeError
                       (py "Vertex AI provider not initialized")).
Proof.
  intros Hinit.
  destruct (initialize_provider_cases Credentials from_service_account_file
              vertexai_init model_service_client named_temporary_file
              self credentials) as [Hsame|(c & p & Hpid & Hrun)].
  - rewrite Hsame in Hinit. injection Hinit as <-. now left.
  - cbn zeta in Hrun. rewrite Hrun in Hinit.
    injection Hinit as <- Hvalid. right.
    unfold VertexAIProvider.validate_configuration in Hvalid.
    cbn [VertexAIProvider.location] in Hvalid.
    destruct (model_service_client _) as [[]|e] eqn:Hclient; [discriminate|].
    eexists. exists e. split; [reflexivity|]. split; [exact Hclient|].
    intros generate_content model messages parameters stream.
    unfold DifyVertexAIIntegration.generate_response.
    cbn [DifyVertexAIIntegration.vertex_provider
           DifyVertexAIIntegration.with_provider].
    destruct (negb _); [discriminate|].
    destruct (VertexAIProvider.generate_response _ _ _ _ _ _ _);
      [discriminate|].
    intros H.
    assert (H' := f_equal (fun o : outcome DifyVertexAIIntegration.dify_response =>
                             match o with
                             | Raises x => hd 0%N (exn_str x)
                             | Returns _ => 0%N
                             end) H).
    vm_compute in H'. discriminate.
Qed.

Lemma initialize_provider_false_witness :
  let self := DifyVertexAIIntegration.create_dify_vertex_ai_integration in
  let denied : pystr -> outcome unit :=
      fun _ => Raises (mk_exn OtherException (py "403 permission denied")) in
  let self' :=
      DifyVertexAIIntegration.with_provider self
        {| VertexAIProvider.project_id := py "test-project";
           VertexAIProvider.location := py "us-east1" |} in
  self' = self
  \/ exists vp e,
      self'.(DifyVertexAIIntegration.vertex_provider) = Some vp
      /\ denied
           (vp.(VertexAIProvider.location) ++ py "-aiplatform.googleapis.com")
         = Raises e
      /\ forall generate_content model messages parameters stream,
          DifyVertexAIIntegration.generate_response generate_content self'
            model messages parameters stream
          <> Raises (mk_exn RuntimeError
                       (py "Vertex AI provider not initialized")).
Proof.
  exact (initialize_provider_false unit
           (fun _ => Returns tt) (fun _ _ _ => Returns tt)
           (fun _ => Raises (mk_exn OtherException (py "403 permission denied")))
           (fun _ => Returns (py "/tmp/key.json"))
           DifyVertexAIIntegration.create_dify_vertex_ai_integration _
           [(py "project_id", py "test-project")] eq_refl).
Defined.

Example initialize_provider_inline_key_goes_to_a_file :
  DifyVertexAIIntegration.initialize_provider pystr
    (fun path => if PyStr.eqb path (py "/tmp/key.json")
                 then Returns path
                 else Raises (mk_exn OtherException (py "no such file")))
    (fun _ _ _ => Returns tt) (fun _ => Returns tt)
    (fun _ => Returns (py "/tmp/key.json"))
    DifyVertexAIIntegration.create_dify_vertex_ai_integration
    [(py "project_id", py "test-project");
     (py "service_account_key", py "{}")]
  = (DifyVertexAIIntegration.with_provider
       DifyVertexAIIntegration.create_dify_vertex_ai_integration
       {| VertexAIProvider.project_id := py "test-project";
          VertexAIProvider.location := py "us-east1" |},
     true).
Proof. reflexivity. Qed.

Lemma test_models_raises
      (generate_content : pystr -> pystr -> VertexAIProvider.generation_config
                          -> VertexAIProvider.api_reply)
      (self : VertexAIProvider.provider) (names : list pystr) :
  forall (acc : PyDict.dict VertexAIProvider.capability) (e : exn),
    VertexAIProvider.test_models generate_content self names acc = Raises e ->
    e = VertexAIProvider.none_not_iterable.
Proof.
  induction names as [|name names IH]; intros acc e; simpl; [discriminate|].
  unfold VertexAIProvider.test_model.
  destruct (VertexAIProvider.response _) as [text|].
  - apply IH.
  - now intros [= <-].
Qed.

Lemma flash_config (model_config : VertexAIProvider.model_config) :
  PyDict.get (py "gemini-flash") VertexAIProvider.available_models
  = Some model_config ->
  model_config.(VertexAIProvider.model_id) = py "gemini-1.5-flash"
  /\ model_config.(VertexAIProvider.max_tokens) = 8192%Z.
Proof. vm_compute. intros [= <-]. split; reflexivity. Qed.

(** X8. The four ways in which [test_hebrew_integration] ends. Without
    a provider it returns the "not initialised" record. Otherwise the
    capability test runs first, outside the [try]: its [TypeError] is the
    only exception that leaves the method. After it, one request is sent
    for [gemini-flash] with the fixed question, 200 tokens and the
    temperature 0.7: when the service raises, the method returns a
    failure record whose error is ["Generation failed: "] followed by the
    text of the exception; when it answers, the record measures the
    answer. In both records the capabilities are those of the test. *)
Theorem hebrew_integration_outcomes
        (generate_content : pystr -> pystr -> VertexAIProvider.generation_config
                            -> VertexAIProvider.api_reply)
        (self : DifyVertexAIIntegration.integration) :
  let flat :=
      DifyVertexAIIntegration._messages_to_prompt
        DifyVertexAIIntegration.test_messages in
  let reply :=
      generate_content (py "gemini-1.5-flash")
        (VertexAIProvider._prepare_hebrew_prompt flat)
        {| VertexAIProvider.max_output_tokens := 200;
           VertexAIProvider.temperature := 0.7;
           VertexAIProvider.top_p := 0.95;
           VertexAIProvider.top_k := 40 |} in
  match DifyVertexAIIntegration.test_hebrew_integration generate_content self
  with
  | Raises e =>
    e = VertexAIProvider.none_not_iterable
    /\ exists vp,
        self.(DifyVertexAIIntegration.vertex_provider) = Some vp
        /\ VertexAIProvider.test_hebrew_capabilities generate_content vp
           = Raises e
  | Returns (DifyVertexAIIntegration.TestNotInitialised error) =>
    self.(DifyVertexAIIntegration.vertex_provider) = None
    /\ error = py "Provider not initialized"
  | Returns (DifyVertexAIIntegration.TestFailed error capabilities) =>
    exists vp e,
      self.(DifyVertexAIIntegration.vertex_provider) = Some vp
      /\ VertexAIProvider.test_hebrew_capabilities generate_content vp
         = Returns capabilities
      /\ reply = Raises e
      /\ error = py "Generation failed: " ++ exn_str e
  | Returns (DifyVertexAIIntegration.TestPassed capabilities len hebrew
               tokens) =>
    exists vp text,
      self.(DifyVertexAIIntegration.vertex_provider) = Some vp
      /\ VertexAIProvider.test_hebrew_capabilities generate_content vp
         = Returns capabilities
      /\ reply = Returns text
      /\ let answer := match text with Some t => t | None => [] end in
         len = List.length answer
         /\ hebrew = DifyVertexAIIntegration._contains_hebrew answer
         /\ tokens = (split_len flat + split_len answer)%nat
  end.
Proof.
  intros flat reply.
  unfold DifyVertexAIIntegration.test_hebrew_integration.
  destruct (DifyVertexAIIntegration.vertex_provider self) as [vp|] eqn:Hvp;
    [|split; reflexivity].
  destruct (VertexAIProvider.test_hebrew_capabilities generate_content vp)
    as [capabilities|e] eqn:Hcaps.
  2:{ split; [exact (test_models_raises _ _ _ _ _ Hcaps)|].
      exists vp. split; [reflexivity | exact Hcaps]. }
  unfold DifyVertexAIIntegration.generate_response. rewrite Hvp.
  change (PyDict.mem (py "gemini-flash") DifyVertexAIIntegration.model_configs)
    with true.
  cbn [negb DifyVertexAIIntegration.p_temperature
            DifyVertexAIIntegration.p_max_tokens].
  fold flat.
  unfold VertexAIProvider.generate_response, VertexAIProvider.try_block.
  destruct (PyDict.get (py "gemini-flash") VertexAIProvider.available_models)
    as [model_config|] eqn:Hget; [|discriminate Hget].
  destruct (flash_config model_config Hget) as [-> ->].
  change (Z.min 200 8192) with 200%Z.
  cbn [VertexAIProvider.run_prog]. fold reply.
  destruct reply as [[[|c t]|]|e] eqn:Hreply.
  - exists vp, (Some []). repeat split; assumption.
  - exists vp, (Some (c :: t)). repeat split; assumption.
  - exists vp, None. repeat split; assumption.
  - exists vp, e. repeat split; assumption.
Qed.

Example hebrew_integration_reports_generation_failure :
  exists capabilities,
    DifyVertexAIIntegration.test_hebrew_integration
      (fun _ prompt _ =>
         if PyStr.eqb prompt
              (VertexAIProvider._prepare_hebrew_prompt
                 VertexAIProvider.hebrew_test_prompt)
         then Returns (Some (py "shalom olam"))
         else Raises (mk_exn OtherException (py "429 quota exceeded")))
      initialised
    = Returns
        (DifyVertexAIIntegration.TestFailed
           (py "Generation failed: 429 quota exceeded") capabilities).
Proof. eexists. reflexivity. Qed.

Example hebrew_integration_passes :
  exists capabilities,
    DifyVertexAIIntegration.test_hebrew_integration shalom_service initialised
    = Returns (DifyVertexAIIntegration.TestPassed capabilities 11 false 6).
Proof. eexists. reflexivity. Qed.

(* ------------------------------------------------------------------ *)
(** ** Further properties: the environment *)

Lemma export_variable_get (environ : PyDict.dict pystr) (key value k : pystr) :
  PyDict.get k (DifyVertexAIIntegration.export_variable environ (key, value))
  = match value with
    | [] => PyDict.get k environ
    | _ :: _ => if PyStr.eqb k key then Some value else PyDict.get k environ
    end.
Proof.
  unfold DifyVertexAIIntegration.export_variable. cbn [fst snd].
  destruct value as [|c value]; [reflexivity|].
  destruct (PyStr.eqb k key) eqn:E.
  - apply pystr_eqb_eq in E. subst k. apply dict_get_set_same.
  - now apply dict_get_set_other.
Qed.

Lemma dict_set_get_id {V : Type} (k : pystr) (v : V) (d : PyDict.dict V) :
  PyDict.get k d = Some v -> PyDict.set k v d = d.
Proof.
  induction d as [|[k' v'] d IH]; simpl; [discriminate|].
  destruct (PyStr.eqb k k').
  - now intros [= ->].
  - intros H. now rewrite IH.
Qed.

Lemma export_variable_id (environ : PyDict.dict pystr) (key value : pystr) :
  PyDict.get key environ = Some value ->
  DifyVertexAIIntegration.export_variable environ (key, value) = environ.
Proof.
  intros H. unfold DifyVertexAIIntegration.export_variable. cbn [fst snd].
  destruct value; [reflexivity|]. now apply dict_set_get_id.
Qed.

Lemma getenv_cases (environ : PyDict.dict pystr) (key default : pystr) :
  (PyDict.get key environ = None
   /\ DifyVertexAIIntegration.getenv environ key default = default)
  \/ PyDict.get key environ
     = Some (DifyVertexAIIntegration.getenv environ key default).
Proof.
  unfold DifyVertexAIIntegration.getenv, PyDict.get_default.
  destruct (PyDict.get key environ); auto.
Qed.

Lemma setup_environment_lookup (environ : PyDict.dict pystr) (k : pystr) :
  PyDict.get k
    (fst (DifyVertexAIIntegration.setup_dify_vertex_ai_environment environ))
  = match PyDict.get k environ with
    | Some v => Some v
    | None => PyDict.get k environment_defaults
    end.
Proof.
  unfold DifyVertexAIIntegration.setup_dify_vertex_ai_environment.
  cbn [fst fold_left]. rewrite !export_variable_get.
  unfold environment_defaults. cbn [PyDict.get].
  destruct (PyStr.eqb k (py "GOOGLE_VERTEX_PROJECT")) eqn:E1;
    [apply pystr_eqb_eq in E1; subst k|];
    [|destruct (PyStr.eqb k (py "GOOGLE_VERTEX_LOCATION")) eqn:E2;
      [apply pystr_eqb_eq in E2; subst k|]];
    [| |destruct (PyStr.eqb k (py "GOOGLE_APPLICATION_CREDENTIALS")) eqn:E3;
        [apply pystr_eqb_eq in E3; subst k|]].
  all: unfold DifyVertexAIIntegration.getenv, PyDict.get_default.
  all: repeat match goal with
              | |- context [PyDict.get ?key ?d] =>
                let v := fresh "v" in
                destruct (PyDict.get key d) as [[|? v]|]
              end; reflexivity.
Qed.

Lemma setup_environment_values (environ : PyDict.dict pystr)
      (key default : pystr) :
  PyDict.get key environment_defaults = Some default ->
  PyDict.get key
    (fst (DifyVertexAIIntegration.setup_dify_vertex_ai_environment environ))
  = Some (DifyVertexAIIntegration.getenv environ key default).
Proof.
  intros Hdefault. rewrite setup_environment_lookup, Hdefault.
  unfold DifyVertexAIIntegration.getenv, PyDict.get_default.
  destruct (PyDict.get key environ); reflexivity.
Qed.

(** X9. [setup_dify_vertex_ai_environment] never changes a variable
    that is set, not even one set to the empty string; it gives each of
    its three variables that is not set its fallback value and touches no
    other variable; and the dictionary it returns holds, for the three
    variables, the values the environment has after the call. *)
Theorem setup_environment_fills_defaults (environ : PyDict.dict pystr) :
  let result :=
      DifyVertexAIIntegration.setup_dify_vertex_ai_environment environ in
  (forall k v, PyDict.get k environ = Some v ->
               PyDict.get k (fst result) = Some v)
  /\ (forall k, PyDict.get k environ = None ->
                PyDict.get k (fst result) = PyDict.get k environment_defaults)
  /\ PyDict.keys (snd result) = PyDict.keys environment_defaults
  /\ (forall k v, In (k, v) (snd result) ->
                  PyDict.get k (fst result) = Some v).
Proof.
  intros result. subst result. split; [|split; [|split]].
  - intros k v H. now rewrite setup_environment_lookup, H.
  - intros k H. now rewrite setup_environment_lookup, H.
  - unfold DifyVertexAIIntegration.setup_dify_vertex_ai_environment.
    cbn [snd]. vm_compute. reflexivity.
  - intros k v Hin.
    unfold DifyVertexAIIntegration.setup_dify_vertex_ai_environment in Hin.
    cbn [snd] in Hin.
    destruct Hin as [Hin|[Hin|[Hin|[]]]]; injection Hin as <- <-;
      apply setup_environment_values; vm_compute; reflexivity.
Qed.

Lemma setup_environment_fills_defaults_witness :
  PyDict.get (py "GOOGLE_VERTEX_LOCATION")
    (fst (DifyVertexAIIntegration.setup_dify_vertex_ai_environment
            [(py "HOME", py "/root"); (py "GOOGLE_VERTEX_LOCATION", [])]))
  = Some [].
Proof.
  exact (proj1 (setup_environment_fills_defaults
                  [(py "HOME", py "/root"); (py "GOOGLE_VERTEX_LOCATION", [])])
               (py "GOOGLE_VERTEX_LOCATION") [] eq_refl).
Defined.

Example setup_environment_on_partial_environment :
  DifyVertexAIIntegration.setup_dify_vertex_ai_environment
    [(py "HOME", py "/root"); (py "GOOGLE_VERTEX_LOCATION", [])]
  = ([(py "HOME", py "/root"); (py "GOOGLE_VERTEX_LOCATION", []);
      (py "GOOGLE_VERTEX_PROJECT", py "lionspace");
      (py "GOOGLE_APPLICATION_CREDENTIALS", py "/app/gcp-key.json")],
     [(py "GOOGLE_VERTEX_PROJECT", py "lionspace");
      (py "GOOGLE_VERTEX_LOCATION", []);
      (py "GOOGLE_APPLICATION_CREDENTIALS", py "/app/gcp-key.json")]).
Proof. vm_compute. reflexivity. Qed.

(** X10. A second call of [setup_dify_vertex_ai_environment] changes
    nothing: it leaves the environment of the first call as it is and
    returns the same dictionary. *)
Theorem setup_environment_idempotent (environ : PyDict.dict pystr) :
  let first :=
      DifyVertexAIIntegration.setup_dify_vertex_ai_environment environ in
  DifyVertexAIIntegration.setup_dify_vertex_ai_environment (fst first)
  = first.
Proof.
  intros first.
  assert (Hvalue : forall key default,
             PyDict.get key environment_defaults = Some default ->
             DifyVertexAIIntegration.getenv (fst first) key default
             = DifyVertexAIIntegration.getenv environ key default).
  { intros key default Hd. subst first.
    unfold DifyVertexAIIntegration.getenv at 1. unfold PyDict.get_default.
    now rewrite (setup_environment_values environ key default Hd). }
  assert (Hheld : forall key default,
             PyDict.get key environment_defaults = Some default ->
             PyDict.get key (fst first)
             = Some (DifyVertexAIIntegration.getenv environ key default)).
  { intros key default Hd. subst first.
    now apply setup_environment_values. }
  unfold DifyVertexAIIntegration.setup_dify_vertex_ai_environment at 1.
  rewrite !Hvalue by (vm_compute; reflexivity). cbn [fold_left].
  rewrite (export_variable_id (fst first) (py "GOOGLE_VERTEX_PROJECT"))
    by (apply Hheld; vm_compute; reflexivity).
  rewrite (export_variable_id (fst first) (py "GOOGLE_VERTEX_LOCATION"))
    by (apply Hheld; vm_compute; reflexivity).
  rewrite (export_variable_id (fst first)
             (py "GOOGLE_APPLICATION_CREDENTIALS"))
    by (apply Hheld; vm_compute; reflexivity).
  subst first.
  unfold DifyVertexAIIntegration.setup_dify_vertex_ai_environment.
  cbn [fst]. reflexivity.
Qed.

(* ------------------------------------------------------------------ *)
(** ** Further properties: the message flattener *)

Lemma existsb_join (f : codepoint -> bool) (sep : pystr) (parts : list pystr) :
  existsb f sep = false ->
  existsb f (join sep parts) = existsb (existsb f) parts.
Proof.
  intros Hsep. induction parts as [|p parts IH]; [reflexivity|].
  cbn [join]. destruct parts as [|q parts].
  - simpl. now rewrite orb_false_r.
  - rewrite !existsb_app, Hsep, IH. reflexivity.
Qed.

Lemma messages_to_prompt_parts
      (messages : list DifyVertexAIIntegration.chat_message) :
  DifyVertexAIIntegration._messages_to_prompt messages
  = join (nl ++ nl)
      (flat_map (DifyVertexAIIntegration.append_part []) messages).
Proof.
  unfold DifyVertexAIIntegration._messages_to_prompt.
  now rewrite fold_append_part.
Qed.

Lemma flat_map_tagged (pairs : list (pystr * pystr)) :
  flat_map (DifyVertexAIIntegration.append_part []) (map tagged pairs)
  = flat_map flatten_line pairs.
Proof.
  induction pairs as [|rc pairs IH]; [reflexivity|].
  cbn [map flat_map]. now rewrite IH, append_part_tagged.
Qed.

Lemma flatten_line_hebrew (rc : pystr * pystr) :
  existsb (existsb VertexAIProvider.is_hebrew_char) (flatten_line rc)
  = match role_marker (fst rc) with
    | Some _ => VertexAIProvider._contains_hebrew (snd rc)
    | None => false
    end.
Proof.
  unfold flatten_line, role_marker, VertexAIProvider._contains_hebrew.
  destruct (PyStr.eqb (fst rc) (py "system"));
    [|destruct (PyStr.eqb (fst rc) (py "user"));
      [|destruct (PyStr.eqb (fst rc) (py "assistant"))]];
    cbn [existsb]; rewrite ?existsb_app, ?orb_false_r; reflexivity.
Qed.

(** X11. The flattened prompt contains a Hebrew character exactly when
    the content of a retained message does: the markers and the
    separators add none, and a dropped message does not count. So the
    wrapper puts the Hebrew instructions in front of the conversation
    exactly in that case, and after it otherwise. *)
Theorem flattened_prompt_hebrew (pairs : list (pystr * pystr)) :
  let flat := DifyVertexAIIntegration._messages_to_prompt (map tagged pairs) in
  let retained_hebrew :=
      existsb (fun rc => match role_marker (fst rc) with
                         | Some _ => VertexAIProvider._contains_hebrew (snd rc)
                         | None => false
                         end) pairs in
  DifyVertexAIIntegration._contains_hebrew flat = retained_hebrew
  /\ VertexAIProvider._prepare_hebrew_prompt flat
     = (if retained_hebrew
        then VertexAIProvider.hebrew_instructions ++ nl ++ nl ++ flat
        else flat ++ nl ++ nl ++ VertexAIProvider.hebrew_instructions).
Proof.
  intros flat retained_hebrew.
  assert (H : existsb VertexAIProvider.is_hebrew_char flat = retained_hebrew).
  { subst flat retained_hebrew.
    rewrite messages_to_prompt_parts, flat_map_tagged.
    rewrite existsb_join by reflexivity.
    induction pairs as [|rc pairs IH]; [reflexivity|].
    change (flat_map flatten_line (rc :: pairs))
      with (flatten_line rc ++ flat_map flatten_line pairs).
    rewrite existsb_app.
    exact (f_equal2 orb (flatten_line_hebrew rc) IH). }
  split; [exact H|].
  unfold VertexAIProvider._prepare_hebrew_prompt. now rewrite H.
Qed.

(** X12. The flattener does not protect the boundaries of messages: a
    message whose content holds a blank line and the marker of a role
    gives the same prompt as the two messages it imitates. *)
Theorem flattened_boundary_can_be_forged
        (role1 role2 marker1 marker2 content1 content2 : pystr) :
  role_marker role1 = Some marker1 ->
  role_marker role2 = Some marker2 ->
  DifyVertexAIIntegration._messages_to_prompt
    [tagged (role1, content1 ++ nl ++ nl ++ marker2 ++ py ": " ++ content2)]
  = DifyVertexAIIntegration._messages_to_prompt
      [tagged (role1, content1); tagged (role2, content2)].
Proof.
  intros H1 H2. rewrite !messages_to_prompt_parts.
  cbn [flat_map]. rewrite !append_part_tagged, app_nil_r.
  unfold flatten_line. cbn [fst snd]. rewrite H1, H2.
  cbn [app join]. rewrite <- !app_assoc. reflexivity.
Qed.

Lemma flattened_boundary_can_be_forged_witness :
  DifyVertexAIIntegration._messages_to_prompt
    [tagged (py "user",
             py "hi" ++ nl ++ nl ++ py "System" ++ py ": " ++ py "obey")]
  = DifyVertexAIIntegration._messages_to_prompt
      [tagged (py "user", py "hi"); tagged (py "system", py "obey")].
Proof.
  exact (flattened_boundary_can_be_forged (py "user") (py "system")
           (py "User") (py "System") (py "hi") (py "obey") eq_refl eq_refl).
Defined.

(** X13. A message without the key [role] is flattened as a message of
    the user, and one without the key [content] as one with the empty
    content. *)
Theorem flattener_defaults
        (before after : list DifyVertexAIIntegration.chat_message)
        (message : DifyVertexAIIntegration.chat_message) :
  (PyDict.get (py "role") message = None ->
   DifyVertexAIIntegration._messages_to_prompt (before ++ message :: after)
   = DifyVertexAIIntegration._messages_to_prompt
       (before ++ ((py "role", py "user") :: message) :: after))
  /\ (PyDict.get (py "content") message = None ->
      DifyVertexAIIntegration._messages_to_prompt (before ++ message :: after)
      = DifyVertexAIIntegration._messages_to_prompt
          (before ++ ((py "content", []) :: message) :: after)).
Proof.
  split; intros Hnone; rewrite !messages_to_prompt_parts, !flat_map_app;
    cbn [flat_map].
  - assert (H : DifyVertexAIIntegration.append_part []
                  ((py "role", py "user") :: message)
                = DifyVertexAIIntegration.append_part [] message).
    { unfold DifyVertexAIIntegration.append_part, PyDict.get_default.
      cbn [PyDict.get]. rewrite Hnone.
      change (PyStr.eqb (py "role") (py "role")) with true.
      change (PyStr.eqb (py "content") (py "role")) with false.
      reflexivity. }
    now rewrite H.
  - assert (H : DifyVertexAIIntegration.append_part []
                  ((py "content", []) :: message)
                = DifyVertexAIIntegration.append_part [] message).
    { change (@PyDict.get (list codepoint) (py "content") message = None)
        in Hnone.
      unfold DifyVertexAIIntegration.append_part, PyDict.get_default.
      cbn [PyDict.get]. rewrite Hnone.
      change (PyStr.eqb (py "content") (py "content")) with true.
      change (PyStr.eqb (py "role") (py "content")) with false.
      reflexivity. }
    now rewrite H.
Qed.

Lemma flattener_defaults_witness :
  DifyVertexAIIntegration._messages_to_prompt
    ([tagged (py "system", py "a")] ++ [(py "content", py "b")] :: [])
  = DifyVertexAIIntegration._messages_to_prompt
      ([tagged (py "system", py "a")]
         ++ ((py "role", py "user") :: [(py "content", py "b")]) :: []).
Proof.
  exact (proj1 (flattener_defaults [tagged (py "system", py "a")] []
                  [(py "content", py "b")]) eq_refl).
Defined.

(* ------------------------------------------------------------------ *)
(** ** Further properties: the agent-state router *)

Module RouterMoreFacts.
Import Orchestrator RouterFacts.

Section Engine.
Variable json_loads : pystr -> option json.
Variable format_json : json -> pystr.
Variable END : pystr.
Variable llm : nat -> prompt -> outcome pystr.

Let agents := Orchestrator.agents json_loads format_json.
Let route_next := Orchestrator.route_next json_loads format_json END.
Let path_map := Orchestrator.path_map json_loads format_json END.
Let invoke_from := Orchestrator.invoke_from json_loads format_json END llm.

Lemma path_map_entries :
  path_map
  = [(py "planner", py "planner"); (py "researcher", py "researcher");
     (py "coder", py "coder"); (py "reviewer", py "reviewer");
     (py "END", END)].
Proof. reflexivity. Qed.

Lemma path_map_lookup (r dest : pystr) :
  PyDict.get r path_map = Some dest ->
  (dest = r /\ PyDict.mem r agents = true) \/ dest = END.
Proof.
  rewrite path_map_entries. cbn [PyDict.get].
  destruct (PyStr.eqb r (py "planner")) eqn:E1;
    [apply pystr_eqb_eq in E1; subst r; intros [= <-]; now left|].
  destruct (PyStr.eqb r (py "researcher")) eqn:E2;
    [apply pystr_eqb_eq in E2; subst r; intros [= <-]; now left|].
  destruct (PyStr.eqb r (py "coder")) eqn:E3;
    [apply pystr_eqb_eq in E3; subst r; intros [= <-]; now left|].
  destruct (PyStr.eqb r (py "reviewer")) eqn:E4;
    [apply pystr_eqb_eq in E4; subst r; intros [= <-]; now left|].
  destruct (PyStr.eqb r (py "END")); [|discriminate].
  intros [= <-]. now right.
Qed.




(** A relation between states that every step respects holds between
    the state a run starts from and each state it hands to a step or
    returns. *)
Lemma invoke_from_invariant (R : AgentState -> AgentState -> Prop) :
  (forall s, R s s) ->
  (forall a b c, R a b -> R b c -> R a c) ->
  (forall node h llm_invoke state update,
      PyDict.get node agents = Some h ->
      h llm_invoke state = Returns update ->
      R state (merge state update)) ->
  forall (fuel calls : nat) (node : pystr) (state : AgentState)
         (trace : list (pystr * AgentState))
         (res : option (outcome AgentState)),
    invoke_from fuel calls node state = (trace, res) ->
    (forall visited st, In (visited, st) trace -> R state st)
    /\ (forall final, res = Some (Returns final) -> R state final).
Proof.
  intros Hrefl Htrans Hstep.
  assert (Hone : forall (node : pystr) (state : AgentState) visited st,
             In (visited, st) [(node, state)] -> R state st).
  { intros node state visited st [[= _ <-]|[]]. apply Hrefl. }
  induction fuel as [|fuel IH]; intros calls node state trace res;
    unfold invoke_from; cbn [Orchestrator.invoke_from].
  { intros [= <- <-]. split; [intros ? ? []|discriminate]. }
  fold agents.
  destruct (PyDict.get node agents) as [h|] eqn:Hget.
  2:{ intros [= <- <-]. split; [intros ? ? []|discriminate]. }
  destruct (h (llm calls) state) as [update|e] eqn:Hrun.
  2:{ intros [= <- <-]. split; [apply Hone|discriminate]. }
  pose proof (Hstep node h (llm calls) state update Hget Hrun) as Hnext.
  destruct (Orchestrator.route_next json_loads format_json END
              (merge state update)) as [r|e].
  2:{ intros [= <- <-]. split; [apply Hone|discriminate]. }
  destruct (PyDict.get r (Orchestrator.path_map json_loads format_json END))
    as [dest|].
  2:{ intros [= <- <-]. split; [apply Hone|discriminate]. }
  destruct (PyStr.eqb dest END).
  - intros [= <- <-]. split; [apply Hone|]. now intros final [= <-].
  - fold invoke_from.
    destruct (invoke_from fuel (S calls) dest (merge state update))
      as [trace' res'] eqn:Hrec.
    intros [= <- <-]. destruct (IH _ _ _ _ _ Hrec) as [Hvisits Hfinal].
    split.
    + intros visited st [[= _ <-]|Hin]; [apply Hrefl|].
      exact (Htrans _ _ _ Hnext (Hvisits visited st Hin)).
    + intros final Hres. exact (Htrans _ _ _ Hnext (Hfinal final Hres)).
Qed.

(** What a step does to the context and to the completed tasks. *)
Lemma step_keeps_context_and_tasks (node : pystr) (h : step_fn)
      (llm_invoke : chat_model) (state : AgentState) (update : StateUpdate) :
  PyDict.get node agents = Some h ->
  h llm_invoke state = Returns update ->
  (forall k, PyDict.mem k state.(context) = true ->
             PyDict.mem k (merge state update).(context) = true)
  /\ exists added,
      (merge state update).(completed_tasks)
      = state.(completed_tasks) ++ added
      /\ (List.length added <= 1)%nat
      /\ (node = py "planner" -> added = []).
Proof.
  intros Hget.
  destruct (agents_get_cases json_loads format_json node h Hget)
    as [[-> ->]|[[-> ->]|[[-> ->]|[-> ->]]]];
    [unfold planner_logic | unfold researcher_logic
     | unfold coder_logic | unfold reviewer_logic];
    (destruct (llm_invoke _) as [reply|e]; [|discriminate]);
    destruct (json_loads reply) as [[| | | | | |result]|];
    intros [= <-]; unfold merge; cbn;
      (split; [intros k Hk; try exact Hk; now apply dict_mem_set|]).
  all: first
         [ exists []; split; [symmetry; apply app_nil_r|];
           split; [simpl; lia | intros _; reflexivity]
         | eexists; split; [reflexivity|];
           split; [simpl; lia | intros H; vm_compute in H; discriminate H] ].
Qed.

End Engine.
End RouterMoreFacts.

Import RouterMoreFacts.

(** X14. A reply that is valid JSON but not an object (an array, a
    string, a number, a literal) is handled like an invalid one: each step
    returns its fallback update with its fixed successor, and nothing of
    the reply but its text reaches the state. *)
Theorem non_object_reply_takes_default_successor
        (json_loads : pystr -> option json) (format_json : json -> pystr)
        (llm_invoke : chat_model) (state : AgentState)
        (reply : pystr) (value : json) :
  json_loads reply = Some value ->
  (forall o, value <> JObject o) ->
  (llm_invoke (planner_messages state) = Returns reply ->
   planner_logic json_loads llm_invoke state
   = Returns (fallback_update state reply (py "researcher")))
  /\ (llm_invoke (researcher_messages format_json state) = Returns reply ->
      researcher_logic json_loads format_json llm_invoke state
      = Returns (fallback_update state reply (py "coder")))
  /\ (llm_invoke (coder_messages format_json state) = Returns reply ->
      coder_logic json_loads format_json llm_invoke state
      = Returns (fallback_update state reply (py "reviewer")))
  /\ (llm_invoke (reviewer_messages format_json state) = Returns reply ->
      reviewer_logic json_loads format_json llm_invoke state
      = Returns (fallback_update state reply (py "END"))).
Proof.
  intros Hjson Hvalue.
  unfold planner_logic, researcher_logic, coder_logic, reviewer_logic.
  split; [|split; [|split]]; intros Hreply; rewrite Hreply, Hjson;
    (destruct value as [| | | | | |o]; [..|now destruct (Hvalue o)]);
    reflexivity.
Qed.

Lemma non_object_reply_takes_default_successor_witness :
  reviewer_logic JsonRef.json_loads JsonRef.format_json
    (always (py "[true]") 3) (fresh_state (py "task"))
  = Returns (fallback_update (fresh_state (py "task")) (py "[true]")
               (py "END")).
Proof.
  refine (proj2 (proj2 (proj2
            (non_object_reply_takes_default_successor JsonRef.json_loads
               JsonRef.format_json (always (py "[true]") 3)
               (fresh_state (py "task")) (py "[true]") (JList [JBool true])
               eq_refl _))) eq_refl).
  intros o H. discriminate H.
Defined.

(** X15. When the planner's reply is an object whose [next_agent] is an
    array or an object, the router raises on the membership test: the run
    stops after the planner and returns the error record, whose only
    message is the error text; the input and the reply are not in it. *)
Theorem unhashable_next_agent_aborts_run
        (json_loads : pystr -> option json) (format_json : json -> pystr)
        (END : pystr) (llm : nat -> prompt -> outcome pystr)
        (fuel : nat) (user_input reply : pystr) (result : PyDict.dict json)
        (value : json) :
  llm 0%nat (planner_messages (fresh_state user_input)) = Returns reply ->
  json_loads reply = Some (JObject result) ->
  PyDict.get (py "next_agent") result = Some value ->
  let aborted e :=
      run json_loads format_json END llm (S fuel) user_input
      = ([(py "planner", fresh_state user_input)],
         Some (ErrorResult (exn_str e)
                 [AIMessage (py "שגיאה: " ++ exn_str e)])) in
  (forall l, value = JList l -> aborted unhashable_list)
  /\ (forall o, value = JObject o -> aborted unhashable_dict).
Proof.
  intros Hreply Hjson Hnext aborted. subst aborted.
  assert (Hstep : exists update,
             planner_logic json_loads (llm 0%nat) (fresh_state user_input)
             = Returns update
             /\ update.(u_next_agent) = Some value).
  { unfold planner_logic. rewrite Hreply, Hjson. eexists.
    split; [reflexivity|]. cbn [u_next_agent].
    unfold PyDict.get_default. now rewrite Hnext. }
  destruct Hstep as (update & Hstep & Hvalue).
  assert (Hwalk := invoke_from_step json_loads format_json END llm fuel
                     0%nat (py "planner") _ (fresh_state user_input) update
                     eq_refl Hstep).
  unfold Orchestrator.route_next in Hwalk.
  rewrite (merge_next_agent _ update _ Hvalue) in Hwalk.
  unfold run, invoke. fold (fresh_state user_input).
  split; intros x ->; rewrite Hwalk; reflexivity.
Qed.

Lemma unhashable_next_agent_aborts_run_witness :
  run JsonRef.json_loads JsonRef.format_json JsonRef.END
    (always list_successor_reply) 1 (py "task")
  = ([(py "planner", fresh_state (py "task"))],
     Some (ErrorResult (exn_str unhashable_list)
             [AIMessage (py "שגיאה: " ++ exn_str unhashable_list)])).
Proof.
  refine (proj1 (unhashable_next_agent_aborts_run JsonRef.json_loads
                   JsonRef.format_json JsonRef.END
                   (always list_successor_reply)
                   0 (py "task") list_successor_reply
                   [(py "next_agent", JList [JString (py "coder")])]
                   (JList [JString (py "coder")]) eq_refl _ _)
                [JString (py "coder")] eq_refl);
    vm_compute; reflexivity.
Defined.



(** X17. A step whose update names as successor a string that is not a
    registered step (a misspelt name as well as ["END"]), a number, a
    boolean or [null] ends the run: no further step runs, whatever the
    bound, and the run returns the merged state or raises the [KeyError]
    of the path map. *)
Theorem unregistered_successor_ends_run
        (json_loads : pystr -> option json) (format_json : json -> pystr)
        (END : pystr) (llm : nat -> prompt -> outcome pystr)
        (fuel calls : nat) (node : pystr) (h : step_fn)
        (state : AgentState) (update : StateUpdate) (value : json) :
  PyDict.get node (agents json_loads format_json) = Some h ->
  h (llm calls) state = Returns update ->
  update.(u_next_agent) = Some value ->
  match value with
  | JString s => PyDict.mem s (agents json_loads format_json) = false
  | JList _ | JObject _ => False
  | _ => True
  end ->
  route_next json_loads format_json END (merge state update) = Returns END
  /\ exists res,
      invoke_from json_loads format_json END llm (S fuel) calls node state
      = ([(node, state)], Some res)
      /\ (res = Returns (merge state update)
          \/ res = Raises (mk_exn KeyError (repr_plain END))).
Proof.
  intros Hget Hstep Hnext Hvalue.
  assert (Hroute : route_next json_loads format_json END (merge state update)
                   = Returns END).
  { unfold route_next. rewrite (merge_next_agent state update _ Hnext).
    destruct value as [| | | |s|l|o]; try reflexivity; try contradiction.
    now rewrite Hvalue. }
  split; [exact Hroute|].
  rewrite (invoke_from_step json_loads format_json END llm fuel calls node h
             state update Hget Hstep), Hroute.
  destruct (PyDict.get END (path_map json_loads format_json END))
    as [dest|] eqn:Hdest.
  - assert (dest = END) as ->.
    { destruct (path_map_lookup json_loads format_json END END dest Hdest)
        as [[-> _]| ->]; reflexivity. }
    rewrite pystr_eqb_refl. eexists. split; [reflexivity|]. now left.
  - eexists. split; [reflexivity|]. now right.
Qed.

Lemma unregistered_successor_ends_run_witness :
  route_next JsonRef.json_loads JsonRef.format_json JsonRef.END
    (merge (fresh_state (py "task"))
       (fallback_update (fresh_state (py "task")) prose_reply (py "END")))
  = Returns JsonRef.END
  /\ exists res,
      invoke_from JsonRef.json_loads JsonRef.format_json JsonRef.END
        (always prose_reply) 5 3 (py "reviewer") (fresh_state (py "task"))
      = ([(py "reviewer", fresh_state (py "task"))], Some res)
      /\ (res = Returns
                  (merge (fresh_state (py "task"))
                     (fallback_update (fresh_state (py "task")) prose_reply
                        (py "END")))
          \/ res = Raises (mk_exn KeyError (repr_plain JsonRef.END))).
Proof.
  refine (unregistered_successor_ends_run JsonRef.json_loads
            JsonRef.format_json JsonRef.END (always prose_reply) 4 3
            (py "reviewer") (reviewer_logic JsonRef.json_loads
                               JsonRef.format_json)
            (fresh_state (py "task"))
            (fallback_update (fresh_state (py "task")) prose_reply (py "END"))
            (JString (py "END")) _ _ eq_refl _);
    vm_compute; reflexivity.
Defined.

(** X18. No step removes a key from the context: a key present before
    a step is present after it, and so in every state that a run hands to
    a step or returns. *)
Theorem context_keys_are_never_removed
        (json_loads : pystr -> option json) (format_json : json -> pystr) :
  let kept (before after : AgentState) :=
      forall k, PyDict.mem k before.(context) = true ->
                PyDict.mem k after.(context) = true in
  (forall (node : pystr) (h : step_fn) (llm_invoke : chat_model)
          (state : AgentState) (update : StateUpdate),
      PyDict.get node (agents json_loads format_json) = Some h ->
      h llm_invoke state = Returns update ->
      kept state (merge state update))
  /\ (forall (END : pystr) (llm : nat -> prompt -> outcome pystr)
             (fuel calls : nat) (node : pystr) (state : AgentState)
             (trace : list (pystr * AgentState))
             (res : option (outcome AgentState)),
         invoke_from json_loads format_json END llm fuel calls node state
         = (trace, res) ->
         (forall visited st, In (visited, st) trace -> kept state st)
         /\ (forall final, res = Some (Returns final) -> kept state final)).
Proof.
  intros kept.
  assert (Hstep : forall node h llm_invoke state update,
             PyDict.get node (agents json_loads format_json) = Some h ->
             h llm_invoke state = Returns update ->
             kept state (merge state update)).
  { intros node h llm_invoke state update Hget Hrun.
    exact (proj1 (step_keeps_context_and_tasks json_loads format_json node h
                    llm_invoke state update Hget Hrun)). }
  split; [exact Hstep|].
  intros END llm.
  apply (invoke_from_invariant json_loads format_json END llm kept).
  - intros s k H. exact H.
  - intros a b c Hab Hbc k H. apply Hbc, Hab, H.
  - exact Hstep.
Qed.

(** X19. The list of completed tasks only grows: a step adds at most
    one entry at its end, the planner adds none, and in every state that a
    run hands to a step or returns the list begins with the list the run
    started from. *)
Theorem completed_tasks_are_append_only
        (json_loads : pystr -> option json) (format_json : json -> pystr) :
  let extends (before after : AgentState) :=
      exists added,
        after.(completed_tasks) = before.(completed_tasks) ++ added in
  (forall (node : pystr) (h : step_fn) (llm_invoke : chat_model)
          (state : AgentState) (update : StateUpdate),
      PyDict.get node (agents json_loads format_json) = Some h ->
      h llm_invoke state = Returns update ->
      exists added,
        (merge state update).(completed_tasks)
        = state.(completed_tasks) ++ added
        /\ (List.length added <= 1)%nat
        /\ (node = py "planner" -> added = []))
  /\ (forall (END : pystr) (llm : nat -> prompt -> outcome pystr)
             (fuel calls : nat) (node : pystr) (state : AgentState)
             (trace : list (pystr * AgentState))
             (res : option (outcome AgentState)),
         invoke_from json_loads format_json END llm fuel calls node state
         = (trace, res) ->
         (forall visited st, In (visited, st) trace -> extends state st)
         /\ (forall final, res = Some (Returns final) -> extends state final)).
Proof.
  intros extends. split.
  - intros node h llm_invoke state update Hget Hrun.
    exact (proj2 (step_keeps_context_and_tasks json_loads format_json node h
                    llm_invoke state update Hget Hrun)).
  - intros END llm.
    apply (invoke_from_invariant json_loads format_json END llm extends).
    + intros s. exists []. now rewrite app_nil_r.
    + intros a b c [x Hx] [y Hy]. exists (x ++ y).
      now rewrite Hy, Hx, app_assoc.
    + intros node h llm_invoke state update Hget Hrun.
      destruct (proj2 (step_keeps_context_and_tasks json_loads format_json
                         node h llm_invoke state update Hget Hrun))
        as (added & Hadded & _).
      now exists added.
Qed.

Lemma context_keys_are_never_removed_witness :
  PyDict.mem (py "plan") (merge planned_state researched_update).(context)
  = true.
Proof.
  refine (proj1 (context_keys_are_never_removed JsonRef.json_loads
                   JsonRef.format_json)
                (py "researcher")
                (researcher_logic JsonRef.json_loads JsonRef.format_json)
                (always approved_reply 1) planned_state researched_update
                _ _ (py "plan") _);
    vm_compute; reflexivity.
Defined.

Lemma completed_tasks_are_append_only_witness :
  exists added,
    (merge planned_state researched_update).(completed_tasks)
    = planned_state.(completed_tasks) ++ added
    /\ (List.length added <= 1)%nat
    /\ (py "researcher" = py "planner" -> added = []).
Proof.
  refine (proj1 (completed_tasks_are_append_only JsonRef.json_loads
                   JsonRef.format_json)
                (py "researcher")
                (researcher_logic JsonRef.json_loads JsonRef.format_json)
                (always approved_reply 1) planned_state researched_update
                _ _);
    vm_compute; reflexivity.
Defined.




Example route_cycle_six :
  route_cycle 6 (py "planner")
  = [py "planner"; py "researcher"; py "coder"; py "reviewer";
     py "planner"; py "researcher"].
Proof. vm_compute. reflexivity. Qed.

Lemma hebrew_test_reports_only_successes_witness :
  let entry :=
      {| VertexAIProvider.cap_success := true;
         VertexAIProvider.has_hebrew_response := false;
         VertexAIProvider.response_length := 11;
         VertexAIProvider.cap_error := None |} in
  let attempt :=
      VertexAIProvider.generate_response shalom_service lionspace
        VertexAIProvider.hebrew_test_prompt (py "gemini-pro") 200 0.7 true in
  entry.(VertexAIProvider.cap_success) = true
  /\ entry.(VertexAIProvider.cap_error) = None
  /\ exists text,
      VertexAIProvider.response attempt = Some text
      /\ VertexAIProvider.success attempt = true
      /\ entry.(VertexAIProvider.has_hebrew_response)
         = VertexAIProvider._contains_hebrew text
      /\ entry.(VertexAIProvider.response_length) = List.length text.
Proof.
  intros entry attempt.
  pose proof (hebrew_test_reports_only_successes shalom_service lionspace)
    as H.
  cbv zeta in H.
  assert (Hrun : VertexAIProvider.test_hebrew_capabilities shalom_service
                   lionspace
                 = Returns [(py "gemini-pro", entry); (py "gemini-flash", entry)])
    by (vm_compute; reflexivity).
  rewrite Hrun in H.
  refine (proj2 H (py "gemini-pro") entry _).
  vm_compute. reflexivity.
Defined.
